(** * Multi-file routes of the spreadsheet API: a shallow embedding

    The development follows [apps/api/app/api/routes/multifile.py]:
    the request and response models, the two helpers
    [validate_files_access] and [load_file_collection], and the four
    endpoints [analyze_multifile], [join_files], [merge_files] and
    [cross_file_reference].

    Python exceptions are an explicit outcome ([Return] / [Raise]); the
    calls to the collaborators that live outside this module (database
    lookup, table loader, engine, logger) are recorded in a trace, so that
    "what ran before the failure" is a statement about that trace. *)

From stdpp Require Import base list gmap strings pretty.
From Stdlib Require Import ZArith Lia Ascii.

Local Open Scope string_scope.
Local Open Scope list_scope.

(** ** Exceptions and the effect type *)

(** The exceptions the module distinguishes.  [except Exception] catches
    all three; [except ValueError] catches only the second. *)
Inductive exn : Type :=
| HTTPException (status_code : Z) (detail : string)
| ValueError (message : string)
| OtherException (message : string).

(** ** Data owned by the collaborators *)

(** [uuid.UUID] holds a 128-bit integer. *)
Definition UUID : Type := N.

(** The ORM row [app.models.file.File], with the attributes the routes read. *)
Module File.
Record t : Type := mk { id : UUID; user_id : UUID; filename : string }.
End File.

(** [app.engine.models]: a loaded table, a loaded file and the collection,
    each given by the methods the routes call on it; the classes themselves
    are the engine's, and their methods are taken to return.  A Python
    [dict] whose iteration order is observed is an association list in that
    order; its keys are distinct, which the statements that need it assume
    as [NoDup]. *)
Record ExcelTable : Type := { get_columns : list string }.

Record ExcelFile : Type := {
  filename : string;
  get_sheet_names : list string;
  get_sheet : string -> ExcelTable
}.

Definition schema_dict : Type :=
  list (string * list (string * list (string * string))).

Record FileCollection : Type := {
  get_schemas : schema_dict;
  get_file : string -> ExcelFile
}.

(** The [output] argument of an operation: the string ["in_place"] or the
    dict [{"type": "new_sheet", "name": name}]. *)
Inductive output_spec : Type :=
| in_place
| new_sheet (name : string).

Module JoinCondition.
Record t : Type := mk {
  left_column : string;
  right_column : string;
  operator : string
}.
End JoinCondition.

Module JoinOperation.
Record t : Type := mk {
  left_file_id : string;
  left_table : string;
  right_file_id : string;
  right_table : string;
  join_type : string;
  conditions : list JoinCondition.t;
  output : output_spec;
  description : string
}.
End JoinOperation.

Module MergeOperation.
Record t : Type := mk {
  file_ids : list string;
  tables : list string;
  merge_type : string;
  output : output_spec;
  description : string
}.
End MergeOperation.

Module CrossFileReferenceOperation.
Record t : Type := mk {
  source_file_id : string;
  source_table : string;
  source_column : string;
  target_file_id : string;
  target_table : string;
  target_column : string;
  reference_type : string;
  output : output_spec;
  description : string
}.
End CrossFileReferenceOperation.

Inductive operation : Type :=
| OpJoin (op : JoinOperation.t)
| OpMerge (op : MergeOperation.t)
| OpCrossFileReference (op : CrossFileReferenceOperation.t).

(** A sheet produced by the engine: [len(result_data)] and, when the object
    has the attribute, [result_data.columns]. *)
Record result_data : Type := {
  rd_len : nat;
  rd_columns : option (list string)
}.

Module ExecutionResult.
Record t : Type := mk {
  errors : list string;
  new_sheets : gmap string (gmap string result_data);
  excel_formulas : list string
}.
End ExecutionResult.

(** Modelled from the spec: [ExecutionResult.has_errors] of
    [app.engine.models], which is not part of this module; the data model
    gives [hasErrors() <=> errors non-empty]. *)
Definition has_errors (r : ExecutionResult.t) : bool :=
  match ExecutionResult.errors r with
  | [] => false
  | _ :: _ => true
  end.

(** ** Effects *)

Inductive event : Type :=
| EvGetFiles (ids : list UUID)
| EvLoadTables (files : list File.t)
| EvExecute (fc : FileCollection) (ops : list operation)
| EvLogError (message : string).

Inductive outcome (A : Type) : Type :=
| Return (a : A)
| Raise (e : exn).
Arguments Return {A} a.
Arguments Raise {A} e.

Record eff (A : Type) : Type := Eff {
  result : outcome A;
  trace : list event
}.
Arguments Eff {A} result trace.
Arguments result {A} e.
Arguments trace {A} e.

Definition eff_ret {A} (a : A) : eff A := Eff (Return a) [].

Definition eff_bind {A B} (f : A -> eff B) (m : eff A) : eff B :=
  match result m with
  | Return a => Eff (result (f a)) (trace m ++ trace (f a))
  | Raise e => Eff (Raise e) (trace m)
  end.

#[global] Instance eff_mret : MRet eff := @eff_ret.
#[global] Instance eff_mbind : MBind eff := @eff_bind.

Definition raise {A} (e : exn) : eff A := Eff (Raise e) [].

(** [try: body except Exception as e: handler e]. *)
Definition try_except {A} (body : eff A) (handler : exn -> eff A) : eff A :=
  match result body with
  | Return a => body
  | Raise e => Eff (result (handler e)) (trace body ++ trace (handler e))
  end.

(** A call to a collaborator: the call is recorded, then it returns or
    raises. *)
Definition call {A} (ev : event) (r : exn + A) : eff A :=
  match r with
  | inr a => Eff (Return a) [ev]
  | inl e => Eff (Raise e) [ev]
  end.

Definition logger_error (message : string) : eff unit :=
  Eff (Return tt) [EvLogError message].

(** Which collaborators a trace touched. *)
Definition is_db_call (ev : event) : bool :=
  match ev with EvGetFiles _ => true | _ => false end.
Definition is_load_call (ev : event) : bool :=
  match ev with EvLoadTables _ => true | _ => false end.
Definition is_engine_call (ev : event) : bool :=
  match ev with EvExecute _ _ => true | _ => false end.

Definition calls_db (t : list event) : bool := existsb is_db_call t.
Definition calls_loader (t : list event) : bool := existsb is_load_call t.
Definition calls_engine (t : list event) : bool := existsb is_engine_call t.

(** ** The collaborators *)

(** Everything the routes import and call.  [uuid_parse] is [uuid.UUID(s)]
    ([inl m] when it raises [ValueError(m)]); [uuid_str] is [str] on a UUID;
    [str_http_exception] is [str] on an [HTTPException]; [set_iter c1 c2] is
    the order in which Python iterates
    [set(c1).intersection(set(c2))]. *)
Record Env : Type := {
  uuid_parse : string -> string + UUID;
  uuid_str : UUID -> string;
  get_files_by_ids_from_db : list UUID -> exn + list File.t;
  load_tables_from_files : list File.t -> exn + FileCollection;
  execute : FileCollection -> list operation -> exn + ExecutionResult.t;
  str_http_exception : Z -> string -> string;
  set_iter : list string -> list string -> list string
}.

(** [str(e)]. *)
Definition str_exn (E : Env) (e : exn) : string :=
  match e with
  | HTTPException s d => str_http_exception E s d
  | ValueError m => m
  | OtherException m => m
  end.

(** ** Request models *)

Module JoinConditionRequest.
Record t : Type := mk {
  left_column : string;
  right_column : string;
  operator : string
}.
End JoinConditionRequest.

Module JoinRequest.
Record t : Type := mk {
  left_file_id : string;
  left_table : string;
  right_file_id : string;
  right_table : string;
  join_type : string;
  conditions : list JoinConditionRequest.t;
  output_sheet_name : string
}.
End JoinRequest.

Module MergeRequest.
Record t : Type := mk {
  file_ids : list string;
  tables : list string;
  merge_type : string;
  output_sheet_name : string
}.
End MergeRequest.

Module CrossReferenceRequest.
Record t : Type := mk {
  source_file_id : string;
  source_table : string;
  source_column : string;
  target_file_id : string;
  target_table : string;
  target_column : string;
  reference_type : string;
  output_sheet_name : option string
}.
End CrossReferenceRequest.

Module MultiFileAnalysisRequest.
Record t : Type := mk {
  file_ids : list string;
  analysis_type : string
}.
End MultiFileAnalysisRequest.

(** ** Response models *)

Module JoinResult.
Record t : Type := mk {
  success : bool;
  output_file_id : option string;
  output_sheet_name : option string;
  row_count : option nat;
  column_count : option nat;
  error : option string
}.
End JoinResult.

Module MergeResult.
Record t : Type := mk {
  success : bool;
  output_file_id : option string;
  output_sheet_name : option string;
  row_count : option nat;
  column_count : option nat;
  error : option string
}.
End MergeResult.

Module CrossReferenceResult.
Record t : Type := mk {
  success : bool;
  target_file_id : option string;
  target_sheet_name : option string;
  target_column : option string;
  formula : option string;
  error : option string
}.
End CrossReferenceResult.

Module FileSchema.
Record t : Type := mk {
  file_id : string;
  filename : string;
  sheets : list (string * list string)
}.
End FileSchema.

Module RelationshipInfo.
Record t : Type := mk {
  source_file : string;
  source_sheet : string;
  source_column : string;
  target_file : string;
  target_sheet : string;
  target_column : string;
  relationship_type : string
}.
End RelationshipInfo.

Module MultiFileAnalysisResult.
Record t : Type := mk {
  file_schemas : list FileSchema.t;
  relationships : list RelationshipInfo.t;
  suggestions : list string
}.
End MultiFileAnalysisResult.

(** [app.schemas.response.ApiResponse]: [code] and [msg] are [None] where
    the call site leaves them to the model's defaults. *)
Record ApiResponse (A : Type) : Type := {
  code : option Z;
  data : A;
  msg : option string
}.
Arguments Build_ApiResponse {A} code data msg.
Arguments code {A} a.
Arguments data {A} a.
Arguments msg {A} a.

(** ** Helper functions *)

(** The loop of [validate_files_access] over the rows the database
    returned; [valid_files] is the list built so far. *)
Fixpoint validate_files_loop (E : Env) (user_id : UUID)
    (files valid_files : list File.t) : eff (list File.t) :=
  match files with
  | [] => mret valid_files
  | file :: rest =>
      if negb (String.eqb (uuid_str E (File.user_id file)) (uuid_str E user_id))
      then raise (HTTPException 403%Z ("无权访问文件: " +:+ File.filename file))
      else validate_files_loop E user_id rest (valid_files ++ [file])
  end.

Definition validate_files_access (E : Env) (file_ids : list UUID)
    (user_id : UUID) : eff (list File.t) :=
  files ← call (EvGetFiles file_ids) (get_files_by_ids_from_db E file_ids);
  validate_files_loop E user_id files [].

(** [[UUID(fid) for fid in file_ids]]: the first identifier that does not
    parse raises [ValueError]. *)
Fixpoint uuid_file_ids (E : Env) (file_ids : list string) : eff (list UUID) :=
  match file_ids with
  | [] => mret []
  | fid :: rest =>
      match uuid_parse E fid with
      | inl m => raise (ValueError m)
      | inr u => us ← uuid_file_ids E rest; mret (u :: us)
      end
  end.

(** [try: body except ValueError as e: handler (str e)]. *)
Definition try_except_ValueError {A} (body : eff A)
    (handler : string -> eff A) : eff A :=
  match result body with
  | Raise (ValueError m) =>
      Eff (result (handler m)) (trace body ++ trace (handler m))
  | _ => body
  end.

Definition load_file_collection (E : Env) (file_ids : list string)
    (user_id : UUID) : eff FileCollection :=
  ids ← try_except_ValueError (uuid_file_ids E file_ids)
         (fun m => raise (HTTPException 400%Z ("无效的 file_id 格式: " +:+ m)));
  files ← validate_files_access E ids user_id;
  call (EvLoadTables files) (load_tables_from_files E files).

(** ** [analyze_multifile] *)

(** The first loop: one [FileSchema] per entry of [schemas], the column
    names of every sheet being [list(columns.values())]. *)
Definition build_file_schemas (fc : FileCollection) : list FileSchema.t :=
  map (fun '(file_id, file_schema) =>
         FileSchema.mk file_id (filename (get_file fc file_id))
           (map (fun '(sheet_name, columns) => (sheet_name, map snd columns))
                file_schema))
      (get_schemas fc).

Definition potential_join (file_id1 sheet1 file_id2 sheet2 col : string)
    : RelationshipInfo.t :=
  RelationshipInfo.mk file_id1 sheet1 col file_id2 sheet2 col "potential_join".

(** [for col in common_cols: relationships.append(...)]. *)
Definition common_cols_loop (file_id1 sheet1 file_id2 sheet2 : string)
    (common_cols : list string) (relationships : list RelationshipInfo.t)
    : list RelationshipInfo.t :=
  fold_left
    (fun rels col => rels ++ [potential_join file_id1 sheet1 file_id2 sheet2 col])
    common_cols relationships.

(** [for sheet2 in file2.get_sheet_names(): ...]. *)
Definition sheet2_loop (E : Env) (file_id1 file_id2 : string)
    (file1 file2 : ExcelFile) (sheet1 : string)
    (relationships : list RelationshipInfo.t) : list RelationshipInfo.t :=
  fold_left
    (fun rels sheet2 =>
       let table1 := get_sheet file1 sheet1 in
       let table2 := get_sheet file2 sheet2 in
       let common_cols := set_iter E (get_columns table1) (get_columns table2) in
       common_cols_loop file_id1 sheet1 file_id2 sheet2 common_cols rels)
    (get_sheet_names file2) relationships.

(** [for sheet1 in file1.get_sheet_names(): ...]. *)
Definition sheet1_loop (E : Env) (file_id1 file_id2 : string)
    (file1 file2 : ExcelFile)
    (relationships : list RelationshipInfo.t) : list RelationshipInfo.t :=
  fold_left
    (fun rels sheet1 => sheet2_loop E file_id1 file_id2 file1 file2 sheet1 rels)
    (get_sheet_names file1) relationships.

Definition pair_suggestion (fc : FileCollection) (file_id1 file_id2 : string)
    : string :=
  "文件 '" +:+ filename (get_file fc file_id1) +:+ "' 和 '"
    +:+ filename (get_file fc file_id2) +:+ "' 可以通过共同列名进行关联".

Definition fallback_suggestion : string :=
  "未发现明显的关联列，建议手动指定连接条件".

(** The two accumulators of the relationship analysis. *)
Definition analysis_state : Type := (list RelationshipInfo.t * list string)%type.

(** The body of [for file_id2 in file_ids[i+1:]]. *)
Definition file_pair_body (E : Env) (fc : FileCollection) (file_id1 : string)
    (st : analysis_state) (file_id2 : string) : analysis_state :=
  let file1 := get_file fc file_id1 in
  let file2 := get_file fc file_id2 in
  (sheet1_loop E file_id1 file_id2 file1 file2 (fst st),
   snd st ++ [pair_suggestion fc file_id1 file_id2]).

(** [enumerate(file_ids)]. *)
Definition enumerate {A} (l : list A) : list (nat * A) :=
  zip (seq 0 (length l)) l.

(** [for i, file_id1 in enumerate(file_ids):
       for file_id2 in file_ids[i+1:]: ...]. *)
Definition file_pairs_loop (E : Env) (fc : FileCollection)
    (file_ids : list string) (st : analysis_state) : analysis_state :=
  fold_left
    (fun st '(i, file_id1) =>
       fold_left (file_pair_body E fc file_id1) (drop (S i) file_ids) st)
    (enumerate file_ids) st.

(** The body of the [try] block after the collection is loaded. *)
Definition analyze_collection (E : Env) (fc : FileCollection)
    : MultiFileAnalysisResult.t :=
  let file_schemas := build_file_schemas fc in
  let file_ids := map fst (get_schemas fc) in
  let '(relationships, suggestions) := file_pairs_loop E fc file_ids ([], []) in
  let suggestions :=
    match relationships with
    | [] => suggestions ++ [fallback_suggestion]
    | _ :: _ => suggestions
    end in
  MultiFileAnalysisResult.mk file_schemas relationships suggestions.

Definition analyze_multifile (E : Env) (request : MultiFileAnalysisRequest.t)
    (user_id : UUID) : eff (ApiResponse MultiFileAnalysisResult.t) :=
  try_except
    (file_collection ←
       load_file_collection E (MultiFileAnalysisRequest.file_ids request) user_id;
     mret (Build_ApiResponse None (analyze_collection E file_collection) None))
    (fun e =>
       _ ← logger_error ("多文件分析失败: " +:+ str_exn E e);
       raise (HTTPException 500%Z ("分析失败: " +:+ str_exn E e))).

(** ** [join_files], [merge_files], [cross_file_reference] *)

(** The block both [join_files] and [merge_files] run on an error-free
    result: look up [new_sheets[output_file_id][output_sheet_name]] and
    take its row and column counts, or [0, 0] when either key is absent. *)
Definition output_counts (r : ExecutionResult.t)
    (output_file_id output_sheet_name : string) : nat * nat :=
  match ExecutionResult.new_sheets r !! output_file_id with
  | Some sheets =>
      match sheets !! output_sheet_name with
      | Some rd =>
          (rd_len rd,
           match rd_columns rd with
           | Some columns => length columns
           | None => 0%nat
           end)
      | None => (0%nat, 0%nat)
      end
  | None => (0%nat, 0%nat)
  end.

Definition join_condition (cond : JoinConditionRequest.t) : JoinCondition.t :=
  JoinCondition.mk (JoinConditionRequest.left_column cond)
    (JoinConditionRequest.right_column cond)
    (JoinConditionRequest.operator cond).

Definition join_operation (request : JoinRequest.t) : JoinOperation.t :=
  JoinOperation.mk
    (JoinRequest.left_file_id request) (JoinRequest.left_table request)
    (JoinRequest.right_file_id request) (JoinRequest.right_table request)
    (JoinRequest.join_type request)
    (map join_condition (JoinRequest.conditions request))
    (new_sheet (JoinRequest.output_sheet_name request))
    (JoinRequest.join_type request +:+ "连接 "
       +:+ JoinRequest.left_file_id request +:+ "."
       +:+ JoinRequest.left_table request +:+ " 和 "
       +:+ JoinRequest.right_file_id request +:+ "."
       +:+ JoinRequest.right_table request).

Definition join_failure (error_msg : string) : JoinResult.t :=
  JoinResult.mk false None None None None (Some error_msg).

Definition join_files (E : Env) (request : JoinRequest.t) (user_id : UUID)
    : eff (ApiResponse JoinResult.t) :=
  try_except
    (let file_ids :=
       [JoinRequest.left_file_id request; JoinRequest.right_file_id request] in
     file_collection ← load_file_collection E file_ids user_id;
     let join_op := OpJoin (join_operation request) in
     result ← call (EvExecute file_collection [join_op])
                   (execute E file_collection [join_op]);
     if has_errors result then
       let error_msg := String.concat "; " (ExecutionResult.errors result) in
       mret (Build_ApiResponse (Some 400%Z) (join_failure error_msg)
               (Some "连接操作失败"))
     else
       let output_file_id := JoinRequest.left_file_id request in
       let output_sheet_name := JoinRequest.output_sheet_name request in
       let '(row_count, column_count) :=
         output_counts result output_file_id output_sheet_name in
       mret (Build_ApiResponse None
               (JoinResult.mk true (Some output_file_id) (Some output_sheet_name)
                  (Some row_count) (Some column_count) None)
               None))
    (fun e =>
       _ ← logger_error ("文件连接失败: " +:+ str_exn E e);
       mret (Build_ApiResponse (Some 500%Z) (join_failure (str_exn E e))
               (Some "连接操作失败"))).

Definition merge_operation (request : MergeRequest.t) : MergeOperation.t :=
  MergeOperation.mk
    (MergeRequest.file_ids request) (MergeRequest.tables request)
    (MergeRequest.merge_type request)
    (new_sheet (MergeRequest.output_sheet_name request))
    (MergeRequest.merge_type request +:+ "合并 "
       +:+ pretty (length (MergeRequest.file_ids request)) +:+ " 个文件").

Definition merge_failure (error_msg : string) : MergeResult.t :=
  MergeResult.mk false None None None None (Some error_msg).

Definition merge_length_error : string := "file_ids 和 tables 长度必须相同".
Definition merge_count_error : string := "至少需要2个文件进行合并".

Definition merge_files (E : Env) (request : MergeRequest.t) (user_id : UUID)
    : eff (ApiResponse MergeResult.t) :=
  try_except
    (if negb (length (MergeRequest.file_ids request)
                =? length (MergeRequest.tables request))%nat then
       mret (Build_ApiResponse (Some 400%Z) (merge_failure merge_length_error)
               (Some "参数错误"))
     else if (length (MergeRequest.file_ids request) <? 2)%nat then
       mret (Build_ApiResponse (Some 400%Z) (merge_failure merge_count_error)
               (Some "参数错误"))
     else
       file_collection ←
         load_file_collection E (MergeRequest.file_ids request) user_id;
       let merge_op := OpMerge (merge_operation request) in
       result ← call (EvExecute file_collection [merge_op])
                     (execute E file_collection [merge_op]);
       if has_errors result then
         let error_msg := String.concat "; " (ExecutionResult.errors result) in
         mret (Build_ApiResponse (Some 400%Z) (merge_failure error_msg)
                 (Some "合并操作失败"))
       else
         match MergeRequest.file_ids request with
         | [] => raise (OtherException "list index out of range")
         | output_file_id :: _ =>
             let output_sheet_name := MergeRequest.output_sheet_name request in
             let '(row_count, column_count) :=
               output_counts result output_file_id output_sheet_name in
             mret (Build_ApiResponse None
                     (MergeResult.mk true (Some output_file_id)
                        (Some output_sheet_name)
                        (Some row_count) (Some column_count) None)
                     None)
         end)
    (fun e =>
       _ ← logger_error ("文件合并失败: " +:+ str_exn E e);
       mret (Build_ApiResponse (Some 500%Z) (merge_failure (str_exn E e))
               (Some "合并操作失败"))).

(** [output_type = "in_place"], replaced by the new-sheet dict
    [if request.output_sheet_name:], that is when the name is neither
    [None] nor the empty string. *)
Definition reference_output (output_sheet_name : option string) : output_spec :=
  match output_sheet_name with
  | None => in_place
  | Some "" => in_place
  | Some name => new_sheet name
  end.

Definition reference_operation (request : CrossReferenceRequest.t)
    : CrossFileReferenceOperation.t :=
  CrossFileReferenceOperation.mk
    (CrossReferenceRequest.source_file_id request)
    (CrossReferenceRequest.source_table request)
    (CrossReferenceRequest.source_column request)
    (CrossReferenceRequest.target_file_id request)
    (CrossReferenceRequest.target_table request)
    (CrossReferenceRequest.target_column request)
    (CrossReferenceRequest.reference_type request)
    (reference_output (CrossReferenceRequest.output_sheet_name request))
    ("从 " +:+ CrossReferenceRequest.source_file_id request +:+ "."
       +:+ CrossReferenceRequest.source_table request +:+ " 引用 "
       +:+ CrossReferenceRequest.source_column request +:+ " 到 "
       +:+ CrossReferenceRequest.target_file_id request +:+ "."
       +:+ CrossReferenceRequest.target_table request).

Definition reference_failure (error_msg : string) : CrossReferenceResult.t :=
  CrossReferenceResult.mk false None None None None (Some error_msg).

Definition cross_file_reference (E : Env) (request : CrossReferenceRequest.t)
    (user_id : UUID) : eff (ApiResponse CrossReferenceResult.t) :=
  try_except
    (let file_ids :=
       [CrossReferenceRequest.source_file_id request;
        CrossReferenceRequest.target_file_id request] in
     file_collection ← load_file_collection E file_ids user_id;
     let reference_op := OpCrossFileReference (reference_operation request) in
     result ← call (EvExecute file_collection [reference_op])
                   (execute E file_collection [reference_op]);
     if has_errors result then
       let error_msg := String.concat "; " (ExecutionResult.errors result) in
       mret (Build_ApiResponse (Some 400%Z) (reference_failure error_msg)
               (Some "引用操作失败"))
     else
       let formula :=
         if String.eqb (CrossReferenceRequest.reference_type request) "formula"
         then head (ExecutionResult.excel_formulas result)
         else None in
       mret (Build_ApiResponse None
               (CrossReferenceResult.mk true
                  (Some (CrossReferenceRequest.target_file_id request))
                  (Some (CrossReferenceRequest.target_table request))
                  (Some (CrossReferenceRequest.target_column request))
                  formula None)
               None))
    (fun e =>
       _ ← logger_error ("跨文件引用失败: " +:+ str_exn E e);
       mret (Build_ApiResponse (Some 500%Z) (reference_failure (str_exn E e))
               (Some "引用操作失败"))).

(** ** The analysis as the specification words it *)

(** All pairs [(l[i], l[j])] with [i < j], in traversal order. *)
Fixpoint file_pairs (file_ids : list string) : list (string * string) :=
  match file_ids with
  | [] => []
  | file_id1 :: rest => map (pair file_id1) rest ++ file_pairs rest
  end.

(** The column names two sheets share, as a set. *)
Definition shared_columns (cols1 cols2 : list string) : gset string :=
  list_to_set cols1 ∩ list_to_set cols2.

Definition sheet_columns (fc : FileCollection) (file_id sheet : string)
    : list string :=
  get_columns (get_sheet (get_file fc file_id) sheet).

(** One record per (sheet of file 1, sheet of file 2, shared column name). *)
Definition spec_pair_relationships (fc : FileCollection)
    (p : string * string) : list RelationshipInfo.t :=
  sheet1 ← get_sheet_names (get_file fc p.1);
  sheet2 ← get_sheet_names (get_file fc p.2);
  col ← elements (shared_columns (sheet_columns fc p.1 sheet1)
                                 (sheet_columns fc p.2 sheet2));
  [potential_join p.1 sheet1 p.2 sheet2 col].

Definition spec_relationships (fc : FileCollection) : list RelationshipInfo.t :=
  file_pairs (map fst (get_schemas fc)) ≫= spec_pair_relationships fc.

(** The records the loops append for one file pair, in the order they
    append them. *)
Definition pair_relationships (E : Env) (fc : FileCollection)
    (p : string * string) : list RelationshipInfo.t :=
  sheet1 ← get_sheet_names (get_file fc p.1);
  sheet2 ← get_sheet_names (get_file fc p.2);
  map (potential_join p.1 sheet1 p.2 sheet2)
      (set_iter E (sheet_columns fc p.1 sheet1) (sheet_columns fc p.2 sheet2)).

(** The number of such triples. *)
Definition spec_relationship_count (fc : FileCollection) : nat :=
  sum_list
    (p ← file_pairs (map fst (get_schemas fc));
     sheet1 ← get_sheet_names (get_file fc p.1);
     sheet2 ← get_sheet_names (get_file fc p.2);
     [size (shared_columns (sheet_columns fc p.1 sheet1)
                           (sheet_columns fc p.2 sheet2))]).

(** Python iterates a set in an order of its own; whatever the order, every
    element comes exactly once. *)
Definition set_iter_sound (E : Env) : Prop :=
  ∀ cols1 cols2, set_iter E cols1 cols2 ≡ₚ elements (shared_columns cols1 cols2).

(** The key looked up in [new_sheets]. *)
Definition output_sheet (r : ExecutionResult.t)
    (output_file_id output_sheet_name : string) : option result_data :=
  sheets ← ExecutionResult.new_sheets r !! output_file_id;
  sheets !! output_sheet_name.

(** Observations on an endpoint's outcome. *)
Definition returned {A} (m : eff A) : bool :=
  match result m with Return _ => true | Raise _ => false end.

Definition raised_http {A} (status : Z) (m : eff A) : bool :=
  match result m with
  | Raise (HTTPException s _) => Z.eqb s status
  | _ => false
  end.

(** Whether a trace reaches the database, the loader or the engine. *)
Definition touches_collaborators (t : list event) : bool :=
  calls_db t || calls_loader t || calls_engine t.

(** The operation lists handed to the engine, in call order. *)
Definition engine_calls (t : list event) : list (list operation) :=
  omap (λ ev, match ev with EvExecute _ ops => Some ops | _ => None end) t.

(** Whether the endpoint reported success to the caller. *)
Definition join_succeeded (m : eff (ApiResponse JoinResult.t)) : bool :=
  match result m with
  | Return r => JoinResult.success (data r)
  | Raise _ => false
  end.

Definition merge_succeeded (m : eff (ApiResponse MergeResult.t)) : bool :=
  match result m with
  | Return r => MergeResult.success (data r)
  | Raise _ => false
  end.

Definition reference_succeeded
    (m : eff (ApiResponse CrossReferenceResult.t)) : bool :=
  match result m with
  | Return r => CrossReferenceResult.success (data r)
  | Raise _ => false
  end.

(** Some identifier of the list does not parse as a UUID. *)
Definition malformed (E : Env) (file_ids : list string) : Prop :=
  ∃ fid m, fid ∈ file_ids ∧ uuid_parse E fid = inl m.

(** The [ValueError] message of the first identifier that does not parse. *)
Fixpoint first_malformed (E : Env) (file_ids : list string) : option string :=
  match file_ids with
  | [] => None
  | fid :: rest =>
      match uuid_parse E fid with
      | inl m => Some m
      | inr _ => first_malformed E rest
      end
  end.

(** The first row the caller does not own. *)
Definition first_offender (E : Env) (user_id : UUID) (files : list File.t)
    : option File.t :=
  List.find
    (λ file, negb (String.eqb (uuid_str E (File.user_id file))
                              (uuid_str E user_id)))
    files.

(** An execution: the collection is loaded and the engine runs the
    operations on it, as the three operation endpoints do. *)
Definition run_engine (E : Env) (file_ids : list string) (user_id : UUID)
    (ops : list operation) : eff ExecutionResult.t :=
  file_collection ← load_file_collection E file_ids user_id;
  call (EvExecute file_collection ops) (execute E file_collection ops).

(** Row and column count of an output sheet. *)
Definition sheet_counts (rd : result_data) : nat * nat :=
  (rd_len rd, from_option length 0%nat (rd_columns rd)).

(** ** A concrete deployment, for running the routes *)

Module Demo.

Definition hex_value (c : ascii) : option N :=
  let n := N_of_ascii c in
  if (48 <=? n)%N && (n <=? 57)%N then Some (n - 48)%N
  else if (97 <=? n)%N && (n <=? 102)%N then Some (n - 87)%N
  else if (65 <=? n)%N && (n <=? 70)%N then Some (n - 55)%N
  else None.

(** [uuid.UUID(s)] on plain and hyphenated hexadecimal strings. *)
Definition parse_uuid (s : string) : string + UUID :=
  let hex := filter (λ c, c ≠ "-"%char) (String.list_ascii_of_string s) in
  if (length hex =? 32)%nat then
    match foldl (λ acc c, a ← acc; d ← hex_value c; Some (16 * a + d)%N)
                (Some 0%N) hex with
    | Some v => inr v
    | None => inl "invalid literal for int() with base 16"
    end
  else inl "badly formed hexadecimal UUID string".

Definition hex_char (d : N) : ascii :=
  nth (N.to_nat d) (String.list_ascii_of_string "0123456789abcdef") "0"%char.

Fixpoint hex_digits (n : nat) (v : N) (acc : list ascii) : list ascii :=
  match n with
  | O => acc
  | S k => hex_digits k (v / 16)%N (hex_char (v mod 16)%N :: acc)
  end.

(** [str] of a UUID: 8-4-4-4-12 lower-case hexadecimal digits. *)
Definition str_uuid (u : UUID) : string :=
  let h := hex_digits 32 u [] in
  let dash := "-"%char in
  String.string_of_list_ascii
    (take 8 h ++ dash :: take 4 (drop 8 h) ++ dash :: take 4 (drop 12 h)
       ++ dash :: take 4 (drop 16 h) ++ dash :: drop 20 h).

(** [str] of an [HTTPException] as Starlette renders it. *)
Definition http_str (status : Z) (detail : string) : string :=
  pretty status +:+ ": " +:+ detail.

Definition alice : UUID := 0xa11ce%N.
Definition bob : UUID := 0xb0b%N.

Definition orders_id : string := "00000000-0000-0000-0000-00000000000a".
Definition customers_id : string := "00000000-0000-0000-0000-00000000000b".
Definition payroll_id : string := "00000000-0000-0000-0000-00000000000c".

(** The [files] table: two files of alice, one of bob. *)
Definition rows : list File.t :=
  [ File.mk 0xa%N alice "orders.xlsx";
    File.mk 0xb%N alice "customers.xlsx";
    File.mk 0xc%N bob "payroll.xlsx" ].

Definition db_lookup (ids : list UUID) : exn + list File.t :=
  inr (filter (λ f, File.id f ∈ ids) rows).

(** A workbook as plain data: file id, file name, and per sheet the mapping
    from column key to column name. *)
Definition workbook : Type :=
  (string * string * list (string * list (string * string)))%type.

Definition lookup_assoc {A} (d : A) (k : string) (l : list (string * A)) : A :=
  match list_find (λ kv, kv.1 = k) l with
  | Some (_, kv) => kv.2
  | None => d
  end.

Definition excel_file_of (w : workbook) : ExcelFile :=
  {| filename := w.1.2;
     get_sheet_names := map fst w.2;
     get_sheet := λ s, {| get_columns := map snd (lookup_assoc [] s w.2) |} |}.

Definition lookup_workbook (file_id : string) (ws : list workbook) : workbook :=
  match list_find (λ w : workbook, w.1.1 = file_id) ws with
  | Some (_, w) => w
  | None => (file_id, "", [])
  end.

Definition collection_of (ws : list workbook) : FileCollection :=
  {| get_schemas := map (λ w : workbook, (w.1.1, w.2)) ws;
     get_file := λ file_id, excel_file_of (lookup_workbook file_id ws) |}.

Definition orders : workbook :=
  (orders_id, "orders.xlsx",
   [("Sheet1", [("A", "id"); ("B", "customer_id"); ("C", "amount")])]).

Definition customers : workbook :=
  (customers_id, "customers.xlsx",
   [("Sheet1", [("A", "customer_id"); ("B", "name")]);
    ("Archive", [("A", "customer_id"); ("B", "id")])]).

Definition payroll : workbook :=
  (payroll_id, "payroll.xlsx", [("Sheet1", [("A", "employee"); ("B", "salary")])]).

Definition workbooks : list workbook := [orders; customers; payroll].

Definition loader (files : list File.t) : exn + FileCollection :=
  inr (collection_of
         (filter (λ w : workbook, w.1.1 ∈ map (λ f, str_uuid (File.id f)) files)
                 workbooks)).

(** The deployment, for a given engine. *)
Definition env
    (engine : FileCollection → list operation → exn + ExecutionResult.t) : Env :=
  {| uuid_parse := parse_uuid;
     uuid_str := str_uuid;
     get_files_by_ids_from_db := db_lookup;
     load_tables_from_files := loader;
     execute := engine;
     str_http_exception := http_str;
     set_iter := λ cols1 cols2, elements (shared_columns cols1 cols2) |}.

(** An engine that writes nothing and reports nothing. *)
Definition silent_engine (fc : FileCollection) (ops : list operation)
    : exn + ExecutionResult.t :=
  inr (ExecutionResult.mk [] ∅ []).

(** An engine that reports two errors. *)
Definition failing_engine (fc : FileCollection) (ops : list operation)
    : exn + ExecutionResult.t :=
  inr (ExecutionResult.mk ["left table not found"; "no rows"] ∅ []).

(** An engine that writes a sheet of three rows and two columns under the
    first file and the sheet named ["out"]. *)
Definition writing_engine (fc : FileCollection) (ops : list operation)
    : exn + ExecutionResult.t :=
  inr (ExecutionResult.mk []
         {[ orders_id :=
              {[ "out" := {| rd_len := 3; rd_columns := Some ["id"; "name"] |} ]} ]}
         []).

(** Requests. *)
Definition join_own : JoinRequest.t :=
  JoinRequest.mk orders_id "Sheet1" customers_id "Sheet1" "inner"
    [JoinConditionRequest.mk "customer_id" "customer_id" "="] "out".

Definition join_no_conditions : JoinRequest.t :=
  JoinRequest.mk orders_id "Sheet1" customers_id "Sheet1" "inner" [] "out".

Definition join_foreign : JoinRequest.t :=
  JoinRequest.mk orders_id "Sheet1" payroll_id "Sheet1" "inner"
    [JoinConditionRequest.mk "id" "employee" "="] "out".

Definition join_malformed : JoinRequest.t :=
  JoinRequest.mk "not-a-uuid" "Sheet1" customers_id "Sheet1" "inner"
    [JoinConditionRequest.mk "id" "id" "="] "out".

Definition merge_own : MergeRequest.t :=
  MergeRequest.mk [orders_id; customers_id] ["Sheet1"; "Sheet1"] "vertical" "out".

Definition merge_mismatch : MergeRequest.t :=
  MergeRequest.mk [orders_id; customers_id; payroll_id] ["Sheet1"; "Sheet1"]
    "vertical" "out".

Definition merge_single : MergeRequest.t :=
  MergeRequest.mk [orders_id] ["Sheet1"] "vertical" "out".

Definition merge_single_malformed : MergeRequest.t :=
  MergeRequest.mk ["not-a-uuid"] ["Sheet1"] "vertical" "out".

Definition merge_malformed : MergeRequest.t :=
  MergeRequest.mk [orders_id; "not-a-uuid"] ["Sheet1"; "Sheet1"] "vertical" "out".

Definition reference_with (name : option string) : CrossReferenceRequest.t :=
  CrossReferenceRequest.mk orders_id "Sheet1" "id" customers_id "Sheet1"
    "order_id" "copy" name.

Definition reference_malformed : CrossReferenceRequest.t :=
  CrossReferenceRequest.mk "not-a-uuid" "Sheet1" "id" customers_id "Sheet1"
    "order_id" "copy" None.

Definition analysis_malformed : MultiFileAnalysisRequest.t :=
  MultiFileAnalysisRequest.mk [orders_id; "not-a-uuid"] "schema".

(** Collections for the relationship analysis. *)
Definition people : workbook :=
  (orders_id, "people.xlsx", [("Sheet1", [("A", "id"); ("B", "name")])]).
Definition badges : workbook :=
  (customers_id, "badges.xlsx", [("Sheet1", [("A", "id"); ("B", "colour")])]).
Definition staff : workbook :=
  (customers_id, "staff.xlsx",
   [("Sheet1", [("A", "name"); ("B", "id"); ("C", "desk")])]).

Definition one_shared : FileCollection := collection_of [people; badges].
Definition two_shared : FileCollection := collection_of [people; staff].
Definition shared_twice : FileCollection := collection_of [orders; customers].
Definition none_shared : FileCollection := collection_of [orders; payroll].

End Demo.

(** ** Further observations on the guard and the traces *)

(** The ownership test of [validate_files_access], positively. *)
Definition owned_by (E : Env) (user_id : UUID) (file : File.t) : bool :=
  String.eqb (uuid_str E (File.user_id file)) (uuid_str E user_id).

(** Every identifier of the request parses, to these UUIDs in this order. *)
Definition parses_to (E : Env) (file_ids : list string) (ids : list UUID)
    : Prop :=
  Forall2 (λ fid u, uuid_parse E fid = inr u) file_ids ids.

(** The ways [load_file_collection] can end, each with its trace. *)
Inductive load_outcome (E : Env) (user_id : UUID) (file_ids : list string)
    : eff FileCollection → Prop :=
| LoadMalformed m :
    first_malformed E file_ids = Some m →
    load_outcome E user_id file_ids
      (Eff (Raise (HTTPException 400%Z ("无效的 file_id 格式: " +:+ m))) [])
| LoadLookupRaises ids e :
    parses_to E file_ids ids →
    get_files_by_ids_from_db E ids = inl e →
    load_outcome E user_id file_ids (Eff (Raise e) [EvGetFiles ids])
| LoadForeign ids files file :
    parses_to E file_ids ids →
    get_files_by_ids_from_db E ids = inr files →
    first_offender E user_id files = Some file →
    load_outcome E user_id file_ids
      (Eff (Raise (HTTPException 403%Z
                     ("无权访问文件: " +:+ File.filename file)))
           [EvGetFiles ids])
| LoadLoaderRaises ids files e :
    parses_to E file_ids ids →
    get_files_by_ids_from_db E ids = inr files →
    first_offender E user_id files = None →
    load_tables_from_files E files = inl e →
    load_outcome E user_id file_ids
      (Eff (Raise e) [EvGetFiles ids; EvLoadTables files])
| LoadReturns ids files fc :
    parses_to E file_ids ids →
    get_files_by_ids_from_db E ids = inr files →
    first_offender E user_id files = None →
    load_tables_from_files E files = inr fc →
    load_outcome E user_id file_ids
      (Eff (Return fc) [EvGetFiles ids; EvLoadTables files]).

(** The collaborators behind the events, the logger apart. *)
Inductive collaborator : Type := Database | Loader | Engine.

Definition collaborator_of (ev : event) : option collaborator :=
  match ev with
  | EvGetFiles _ => Some Database
  | EvLoadTables _ => Some Loader
  | EvExecute _ _ => Some Engine
  | EvLogError _ => None
  end.

Definition collaborator_calls (t : list event) : list collaborator :=
  omap collaborator_of t.

(** The lines written with [logger.error]. *)
Definition logged (t : list event) : list string :=
  omap (λ ev, match ev with EvLogError m => Some m | _ => None end) t.

(** The row lists handed to the loader. *)
Definition loader_calls (t : list event) : list (list File.t) :=
  omap (λ ev, match ev with EvLoadTables files => Some files | _ => None end) t.

(** The envelope an operation endpoint returns for a caught exception. *)
Definition join_caught (E : Env) (e : exn) : ApiResponse JoinResult.t :=
  Build_ApiResponse (Some 500%Z) (join_failure (str_exn E e))
    (Some "连接操作失败").

Definition merge_caught (E : Env) (e : exn) : ApiResponse MergeResult.t :=
  Build_ApiResponse (Some 500%Z) (merge_failure (str_exn E e))
    (Some "合并操作失败").

Definition reference_caught (E : Env) (e : exn)
    : ApiResponse CrossReferenceResult.t :=
  Build_ApiResponse (Some 500%Z) (reference_failure (str_exn E e))
    (Some "引用操作失败").

(** The envelope an operation endpoint returns for an engine result. *)
Definition join_normalised (request : JoinRequest.t) (res : ExecutionResult.t)
    : ApiResponse JoinResult.t :=
  if has_errors res then
    Build_ApiResponse (Some 400%Z)
      (join_failure (String.concat "; " (ExecutionResult.errors res)))
      (Some "连接操作失败")
  else
    let counts :=
      output_counts res (JoinRequest.left_file_id request)
        (JoinRequest.output_sheet_name request) in
    Build_ApiResponse None
      (JoinResult.mk true (Some (JoinRequest.left_file_id request))
         (Some (JoinRequest.output_sheet_name request))
         (Some counts.1) (Some counts.2) None)
      None.

Definition merge_normalised (request : MergeRequest.t) (first : string)
    (res : ExecutionResult.t) : ApiResponse MergeResult.t :=
  if has_errors res then
    Build_ApiResponse (Some 400%Z)
      (merge_failure (String.concat "; " (ExecutionResult.errors res)))
      (Some "合并操作失败")
  else
    let counts :=
      output_counts res first (MergeRequest.output_sheet_name request) in
    Build_ApiResponse None
      (MergeResult.mk true (Some first)
         (Some (MergeRequest.output_sheet_name request))
         (Some counts.1) (Some counts.2) None)
      None.

Definition reference_normalised (request : CrossReferenceRequest.t)
    (res : ExecutionResult.t) : ApiResponse CrossReferenceResult.t :=
  if has_errors res then
    Build_ApiResponse (Some 400%Z)
      (reference_failure (String.concat "; " (ExecutionResult.errors res)))
      (Some "引用操作失败")
  else
    Build_ApiResponse None
      (CrossReferenceResult.mk true
         (Some (CrossReferenceRequest.target_file_id request))
         (Some (CrossReferenceRequest.target_table request))
         (Some (CrossReferenceRequest.target_column request))
         (if String.eqb (CrossReferenceRequest.reference_type request) "formula"
          then head (ExecutionResult.excel_formulas res) else None)
         None)
      None.

(** What an operation endpoint does once [load_file_collection] has ended
    as [load]: the exception is caught, or the engine runs [ops] and its
    exception is caught or its result normalised. *)
Definition after_load {A} (E : Env) (load : eff FileCollection)
    (ops : list operation) (log_prefix : string)
    (caught : exn → ApiResponse A) (normalised : ExecutionResult.t → ApiResponse A)
    : eff (ApiResponse A) :=
  match result load with
  | Raise e =>
      Eff (Return (caught e))
          (trace load ++ [EvLogError (log_prefix +:+ str_exn E e)])
  | Return fc =>
      match execute E fc ops with
      | inl e =>
          Eff (Return (caught e))
              (trace load ++ [EvExecute fc ops;
                              EvLogError (log_prefix +:+ str_exn E e)])
      | inr res =>
          Eff (Return (normalised res)) (trace load ++ [EvExecute fc ops])
      end
  end.




(** More inputs for the demo deployment. *)
Module Sample.

(** An engine that raises. *)
Definition raising_engine (fc : FileCollection) (ops : list operation)
    : exn + ExecutionResult.t :=
  inl (OtherException "engine crashed").

(** An engine that returns two formulas. *)
Definition formula_engine (fc : FileCollection) (ops : list operation)
    : exn + ExecutionResult.t :=
  inr (ExecutionResult.mk [] ∅ ["=VLOOKUP(A2,orders!A:C,3,FALSE)"; "=A2"]).

Definition reference_formula (name : option string) : CrossReferenceRequest.t :=
  CrossReferenceRequest.mk Demo.orders_id "Sheet1" "amount" Demo.customers_id
    "Sheet1" "order_amount" "formula" name.

Definition analysis_of (file_ids : list string) : MultiFileAnalysisRequest.t :=
  MultiFileAnalysisRequest.mk file_ids "schema".

End Sample.

(** * The bucket scripts

    [apps/api/fix_minio.py] and [apps/api/make_public.py] drive a MinIO
    client.  The server behind the client is a state of an arbitrary type;
    each client method maps a state to an answer (a value or an exception)
    and the next state.  Client calls and printed lines are recorded in
    order. *)

Module Minio.

#[local] Set Warnings "-register-all".

(** The values the scripts pass to [json.dumps]. *)
Inductive json : Type :=
| JString (s : string)
| JList (items : list json)
| JObject (fields : list (string * json)).

(** [minio.error.S3Error], and any other exception; each carries its
    [str]. *)
Inductive error : Type :=
| S3Error (message : string)
| OtherError (message : string).

Definition str_error (e : error) : string :=
  match e with
  | S3Error m => m
  | OtherError m => m
  end.

Inductive event : Type :=
| BucketExists (bucket : string)
| MakeBucket (bucket : string)
| SetBucketPolicy (bucket policy : string)
| Print (line : string).

Inductive outcome (A : Type) : Type :=
| Done (a : A)
| Failed (e : error).
Arguments Done {A} a.
Arguments Failed {A} e.

Record run (S A : Type) : Type := Run {
  outcome_of : outcome A;
  final : S;
  events : list event
}.
Arguments Run {S A} outcome_of final events.
Arguments outcome_of {S A} r.
Arguments final {S A} r.
Arguments events {S A} r.

Definition script (S A : Type) : Type := S → run S A.

(** The client and [json.dumps]. *)
Record World (S : Type) : Type := {
  bucket_exists : string → S → (error + bool) * S;
  make_bucket : string → S → (error + unit) * S;
  set_bucket_policy : string → string → S → (error + unit) * S;
  dumps : json → string
}.
Arguments bucket_exists {S} w bucket s.
Arguments make_bucket {S} w bucket s.
Arguments set_bucket_policy {S} w bucket policy s.
Arguments dumps {S} w value.

Definition ret {S A} (a : A) : script S A := λ s, Run (Done a) s [].

Definition bind {S A B} (m : script S A) (k : A → script S B) : script S B :=
  λ s,
    let r := m s in
    match outcome_of r with
    | Done a =>
        let r' := k a (final r) in
        Run (outcome_of r') (final r') (events r ++ events r')
    | Failed e => Run (Failed e) (final r) (events r)
    end.

(** A client call: recorded, then answered. *)
Definition call {S A} (ev : event) (method : S → (error + A) * S) : script S A :=
  λ s,
    match method s with
    | (inr a, s') => Run (Done a) s' [ev]
    | (inl e, s') => Run (Failed e) s' [ev]
    end.

Definition print {S} (line : string) : script S unit :=
  λ s, Run (Done tt) s [Print line].

(** [try: body except <class> as e: handler e], [catches] telling the
    exceptions of the class. *)
Definition try_except {S A} (catches : error → bool) (body : script S A)
    (handler : error → script S A) : script S A :=
  λ s,
    let r := body s in
    match outcome_of r with
    | Done _ => r
    | Failed e =>
        if catches e then
          let r' := handler e (final r) in
          Run (outcome_of r') (final r') (events r ++ events r')
        else r
    end.

Definition is_S3Error (e : error) : bool :=
  match e with S3Error _ => true | OtherError _ => false end.

Definition is_Exception (e : error) : bool := true.

(** ** [fix_minio.py] *)

Definition BUCKET_NAME : string := "llm-excel".

Definition fix_policy : json :=
  JObject
    [("Version", JString "2012-10-17");
     ("Statement",
      JList
        [JObject
           [("Effect", JString "Allow");
            ("Principal", JObject [("AWS", JList [JString "*"])]);
            ("Action",
             JList [JString "s3:GetBucketLocation"; JString "s3:ListBucket"]);
            ("Resource", JList [JString ("arn:aws:s3:::" +:+ BUCKET_NAME)])];
         JObject
           [("Effect", JString "Allow");
            ("Principal", JObject [("AWS", JList [JString "*"])]);
            ("Action", JList [JString "s3:GetObject"]);
            ("Resource",
             JList [JString ("arn:aws:s3:::" +:+ BUCKET_NAME +:+ "/*")])]])].

Definition fix_success_line : string :=
  "✅ 成功！存储桶 '" +:+ BUCKET_NAME +:+ "' 的权限已设为公开读取。".

Definition fix_failure_line (e : error) : string :=
  "❌ 发生错误: " +:+ str_error e.

Definition creating_line : string := "Creating bucket: " +:+ BUCKET_NAME.

Definition fix_bucket_policy {S} (W : World S) : script S unit :=
  try_except is_S3Error
    (bind (call (BucketExists BUCKET_NAME) (bucket_exists W BUCKET_NAME))
       (λ found,
          bind
            (if negb found then
               bind (print creating_line)
                 (λ _, call (MakeBucket BUCKET_NAME)
                         (make_bucket W BUCKET_NAME))
             else ret tt)
            (λ _,
               bind
                 (call (SetBucketPolicy BUCKET_NAME (dumps W fix_policy))
                    (set_bucket_policy W BUCKET_NAME (dumps W fix_policy)))
                 (λ _, print fix_success_line))))
    (λ e, print (fix_failure_line e)).

(** ** [make_public.py] *)

Definition bucket_name : string := "llmexcel".

Definition public_policy : json :=
  JObject
    [("Version", JString "2012-10-17");
     ("Statement",
      JList
        [JObject
           [("Effect", JString "Allow");
            ("Principal", JObject [("AWS", JString "*")]);
            ("Action", JString "s3:GetObject");
            ("Resource", JString ("arn:aws:s3:::" +:+ bucket_name +:+ "/*"))]])].

Definition public_success_line : string :=
  "✅ 太棒了！成功将 MinIO 桶 '" +:+ bucket_name +:+ "' 的权限设置为公开下载！".

Definition public_failure_line (e : error) : string :=
  "❌ 设置失败，错误信息: " +:+ str_error e.

(** The module body, from step 3 on. *)
Definition make_public {S} (W : World S) : script S unit :=
  try_except is_Exception
    (bind
       (call (SetBucketPolicy bucket_name (dumps W public_policy))
          (set_bucket_policy W bucket_name (dumps W public_policy)))
       (λ _, print public_success_line))
    (λ e, print (public_failure_line e)).

(** ** Observations *)

Definition is_client_call (ev : event) : bool :=
  match ev with Print _ => false | _ => true end.

Definition client_calls (t : list event) : list event :=
  List.filter is_client_call t.

Definition printed (t : list event) : list string :=
  omap (λ ev, match ev with Print line => Some line | _ => None end) t.

(** ** A small server, for running the scripts: the set of buckets and
    their policies. *)

Definition store : Type := (gset string * gmap string string)%type.

Definition quote : string := String "034"%char EmptyString.

(** [json.dumps] with its default separators, on ASCII text free of
    characters that need escaping. *)
Fixpoint dumps_json (v : json) : string :=
  match v with
  | JString s => quote +:+ s +:+ quote
  | JList items =>
      "[" +:+ String.concat ", " (map dumps_json items) +:+ "]"
  | JObject fields =>
      "{" +:+ String.concat ", "
                (map (λ kv : string * json,
                        quote +:+ kv.1 +:+ quote +:+ ": " +:+ dumps_json kv.2)
                     fields)
          +:+ "}"
  end.

Definition store_world : World store :=
  {| bucket_exists := λ b s, (inr (bool_decide (b ∈ s.1)), s);
     make_bucket := λ b s,
       if bool_decide (b ∈ s.1)
       then (inl (S3Error "BucketAlreadyOwnedByYou"), s)
       else (inr tt, ({[b]} ∪ s.1, s.2));
     set_bucket_policy := λ b p s,
       if bool_decide (b ∈ s.1)
       then (inr tt, (s.1, <[b:=p]> s.2))
       else (inl (S3Error "NoSuchBucket"), s);
     dumps := dumps_json |}.

Definition empty_store : store := (∅, ∅).

End Minio.

(** * Properties *)

(** ** The loops of the analysis, unfolded *)

Section Loops.

Lemma fold_left_append {A B} (f : list B → A → list B) (g : A → list B)
    (l : list A) (acc : list B) :
  (∀ acc x, f acc x = acc ++ g x) →
  fold_left f l acc = acc ++ (l ≫= g).
Proof.
  intros Hf. revert acc.
  induction l as [|x l IH]; intros acc; csimpl.
  - by rewrite app_nil_r.
  - rewrite IH, Hf. by rewrite <- app_assoc.
Qed.

Lemma common_cols_loop_app f1 s1 f2 s2 cols rels :
  common_cols_loop f1 s1 f2 s2 cols rels
  = rels ++ map (potential_join f1 s1 f2 s2) cols.
Proof.
  unfold common_cols_loop.
  rewrite (fold_left_append _ (λ col, [potential_join f1 s1 f2 s2 col])) by done.
  f_equal.
Qed.

Lemma sheet1_loop_app E fc f1 f2 rels :
  sheet1_loop E f1 f2 (get_file fc f1) (get_file fc f2) rels
  = rels ++ pair_relationships E fc (f1, f2).
Proof.
  unfold sheet1_loop, pair_relationships. simpl.
  apply fold_left_append. intros acc sheet1.
  unfold sheet2_loop.
  apply fold_left_append. intros acc' sheet2. simpl.
  apply common_cols_loop_app.
Qed.

Lemma file_pair_body_app E fc f1 st f2 :
  file_pair_body E fc f1 st f2
  = (st.1 ++ pair_relationships E fc (f1, f2),
     st.2 ++ [pair_suggestion fc f1 f2]).
Proof. unfold file_pair_body. by rewrite sheet1_loop_app. Qed.

Lemma inner_loop_app E fc f1 rest st :
  fold_left (file_pair_body E fc f1) rest st
  = (st.1 ++ (map (pair f1) rest ≫= pair_relationships E fc),
     st.2 ++ map (λ p, pair_suggestion fc p.1 p.2) (map (pair f1) rest)).
Proof.
  revert st. induction rest as [|f2 rest IH]; intros [rels sugg]; simpl.
  - by rewrite !app_nil_r.
  - rewrite IH, file_pair_body_app. simpl.
    rewrite <- !app_assoc. done.
Qed.

(** [enumerate] with the slice [l[i+1:]] walks the list with its tail. *)
Lemma enumerate_tails {A St} (g : A → list A → St → St)
    (pre suf : list A) (st : St) :
  fold_left (λ st '(i, x), g x (drop (S i) (pre ++ suf)) st)
            (zip (seq (length pre) (length suf)) suf) st
  = (fix walk (l : list A) (st : St) : St :=
       match l with
       | [] => st
       | x :: rest => walk rest (g x rest st)
       end) suf st.
Proof.
  revert pre st. induction suf as [|x suf IH]; intros pre st; [done|].
  assert (Hd : drop (S (length pre)) (pre ++ x :: suf) = suf).
  { rewrite (cons_middle x pre suf), app_assoc.
    apply drop_app_length'. rewrite length_app. simpl. lia. }
  cbn [length seq zip_with fold_left]. rewrite Hd.
  specialize (IH (pre ++ [x]) (g x suf st)).
  rewrite length_app, Nat.add_1_r, <- app_assoc in IH. exact IH.
Qed.

Lemma file_pairs_loop_app E fc file_ids st :
  file_pairs_loop E fc file_ids st
  = (st.1 ++ (file_pairs file_ids ≫= pair_relationships E fc),
     st.2 ++ map (λ p, pair_suggestion fc p.1 p.2) (file_pairs file_ids)).
Proof.
  unfold file_pairs_loop, enumerate.
  pose proof (enumerate_tails
    (λ f1 rest st, fold_left (file_pair_body E fc f1) rest st) [] file_ids st) as H.
  simpl in H. rewrite H. clear H.
  revert st. induction file_ids as [|f1 rest IH]; intros [rels sugg]; simpl.
  - by rewrite !app_nil_r.
  - rewrite IH, inner_loop_app. simpl.
    rewrite bind_app, map_app, <- !app_assoc. done.
Qed.

End Loops.

(** ** What [analyze_collection] returns *)

Section Analysis.

Context (E : Env) (fc : FileCollection).

Let file_ids : list string := map fst (get_schemas fc).

Lemma analyze_relationships :
  MultiFileAnalysisResult.relationships (analyze_collection E fc)
  = file_pairs file_ids ≫= pair_relationships E fc.
Proof.
  unfold analyze_collection. rewrite file_pairs_loop_app. simpl.
  fold file_ids.
  by destruct (file_pairs file_ids ≫= pair_relationships E fc).
Qed.

Lemma analyze_suggestions :
  MultiFileAnalysisResult.suggestions (analyze_collection E fc)
  = map (λ p, pair_suggestion fc p.1 p.2) (file_pairs file_ids)
    ++ match MultiFileAnalysisResult.relationships (analyze_collection E fc) with
       | [] => [fallback_suggestion]
       | _ :: _ => []
       end.
Proof.
  rewrite analyze_relationships.
  unfold analyze_collection. rewrite file_pairs_loop_app. simpl.
  fold file_ids.
  destruct (file_pairs file_ids ≫= pair_relationships E fc); simpl.
  - done.
  - by rewrite app_nil_r.
Qed.

End Analysis.

(** ** Pairs of files *)

Section FilePairs.

Lemma file_pairs_elem_of (l : list string) (p : string * string) :
  p ∈ file_pairs l
  ↔ ∃ i j : nat, (i < j)%nat ∧ l !! i = Some p.1 ∧ l !! j = Some p.2.
Proof.
  revert p. induction l as [|x l IH]; intros [a b]; simpl.
  - split; [by intros ?%elem_of_nil | by intros (i & j & _ & ? & _)].
  - rewrite elem_of_app, list_elem_of_fmap, IH. simpl. split.
    + intros [(y & [= -> ->] & Hy) | (i & j & Hij & Hi & Hj)].
      * apply list_elem_of_lookup in Hy as [j Hj].
        exists 0, (S j). split; [lia | done].
      * exists (S i), (S j). split; [lia | done].
    + intros (i & j & Hij & Hi & Hj).
      destruct j as [|j]; [lia|]. simpl in Hj.
      destruct i as [|i]; simpl in Hi.
      * left. exists b. split; [congruence|].
        apply list_elem_of_lookup. by exists j.
      * right. exists i, j. split; [lia | done].
Qed.

Lemma file_pairs_length (l : list string) :
  (2 * length (file_pairs l) = length l * (length l - 1))%nat.
Proof.
  induction l as [|x l IH]; simpl; [done|].
  rewrite length_app, length_map. nia.
Qed.

Lemma file_pairs_short (l : list string) :
  (length l ≤ 1)%nat → file_pairs l = [].
Proof. destruct l as [|x [|y l]]; simpl; [done | done | lia]. Qed.

Lemma file_pairs_NoDup (l : list string) : NoDup l → NoDup (file_pairs l).
Proof.
  induction 1 as [|x l Hx Hl IH]; simpl; [constructor|].
  apply NoDup_app. split; [|split; [|done]].
  - apply NoDup_fmap_2; [|done]. by intros ?? [=].
  - intros [a b] (y & [= -> ->] & Hy)%list_elem_of_fmap Hin.
    apply file_pairs_elem_of in Hin as (i & j & _ & Hi & _).
    apply Hx. apply list_elem_of_lookup. by exists i.
Qed.

End FilePairs.

(** ** Relationship records *)

Section Relationships.

Lemma bind_pointwise_perm {A B} (f g : A → list B) (l : list A) :
  (∀ x, f x ≡ₚ g x) → l ≫= f ≡ₚ l ≫= g.
Proof.
  intros Hfg. induction l as [|x l IH]; csimpl; [done|].
  by rewrite (Hfg x), IH.
Qed.

Lemma bind_length_sum {A B} (f : A → list B) (g : A → list nat) (l : list A) :
  (∀ x, length (f x) = sum_list (g x)) →
  length (l ≫= f) = sum_list (l ≫= g).
Proof.
  intros Hfg. induction l as [|x l IH]; csimpl; [done|].
  by rewrite length_app, sum_list_with_app, Hfg, IH.
Qed.

Lemma pair_relationships_perm E fc p :
  set_iter_sound E →
  pair_relationships E fc p ≡ₚ spec_pair_relationships fc p.
Proof.
  intros Hs. unfold pair_relationships, spec_pair_relationships.
  apply bind_pointwise_perm. intros sheet1.
  apply bind_pointwise_perm. intros sheet2.
  rewrite (Hs _ _).
  induction (elements _) as [|c cs IH]; csimpl; [done | by f_equiv].
Qed.

Lemma pair_relationships_origin E fc p r :
  r ∈ pair_relationships E fc p →
  ∃ sheet1 sheet2 col, r = potential_join p.1 sheet1 p.2 sheet2 col.
Proof.
  unfold pair_relationships.
  intros (sheet1 & (sheet2 & Hr & _)%list_elem_of_bind & _)%list_elem_of_bind.
  apply list_elem_of_fmap in Hr as (col & -> & _). eauto.
Qed.

End Relationships.

(** C4. Between every two files of the loaded collection, taken in the
    order of the schema mapping, the analysis emits one [potential_join]
    record for each triple of a sheet of the first file, a sheet of the
    second file and a column name the two sheets share, over the whole
    cross product of sheets and without deduplication: the records are, up
    to the order in which a set is iterated, those triples, and their
    number is the number of triples.  When the collection is two files of
    one sheet each, the number of records is the number of shared names:
    one for one shared name, two for two. *)
Theorem relationships_one_per_shared_column (E : Env) (fc : FileCollection) :
  set_iter_sound E →
  MultiFileAnalysisResult.relationships (analyze_collection E fc)
    ≡ₚ spec_relationships fc
  ∧ length (MultiFileAnalysisResult.relationships (analyze_collection E fc))
    = spec_relationship_count fc
  ∧ ∀ f1 f2 schema1 schema2 sheet1 sheet2,
      get_schemas fc = [(f1, schema1); (f2, schema2)] →
      get_sheet_names (get_file fc f1) = [sheet1] →
      get_sheet_names (get_file fc f2) = [sheet2] →
      length (MultiFileAnalysisResult.relationships (analyze_collection E fc))
      = size (shared_columns (sheet_columns fc f1 sheet1)
                             (sheet_columns fc f2 sheet2)).
Proof.
  intros Hs.
  assert (Hlen :
    length (MultiFileAnalysisResult.relationships (analyze_collection E fc))
    = spec_relationship_count fc).
  { rewrite analyze_relationships. unfold spec_relationship_count.
    apply bind_length_sum. intros p. unfold pair_relationships.
    apply bind_length_sum. intros sheet1.
    apply bind_length_sum. intros sheet2.
    rewrite length_map, (Hs _ _). simpl. unfold size, set_size. simpl. lia. }
  split; [|split; [exact Hlen|]].
  - rewrite analyze_relationships. unfold spec_relationships.
    apply bind_pointwise_perm. intros p. by apply pair_relationships_perm.
  - intros f1 f2 schema1 schema2 sheet1 sheet2 Hsch Hn1 Hn2.
    rewrite Hlen. unfold spec_relationship_count.
    rewrite Hsch. csimpl. rewrite Hn1, Hn2. csimpl. lia.
Qed.

(** C5. The suggestions are one message per pair of files of the loaded
    collection (positions [i < j] of the schema mapping), whether or not the
    pair shares a column, followed by the fallback message exactly when the
    relationship list is empty; there are [n (n - 1) / 2] pairs; with at
    most one file the relationships are empty and the suggestions are the
    fallback message alone. *)
Theorem suggestions_one_per_pair_plus_fallback (E : Env) (fc : FileCollection) :
  let r := analyze_collection E fc in
  let file_ids := map fst (get_schemas fc) in
  MultiFileAnalysisResult.suggestions r
  = map (λ p, pair_suggestion fc p.1 p.2) (file_pairs file_ids)
    ++ (if decide (MultiFileAnalysisResult.relationships r = [])
        then [fallback_suggestion] else [])
  ∧ (∀ p, p ∈ file_pairs file_ids
          ↔ ∃ i j : nat, (i < j)%nat ∧ file_ids !! i = Some p.1
                         ∧ file_ids !! j = Some p.2)
  ∧ (2 * length (file_pairs file_ids)
     = length file_ids * (length file_ids - 1))%nat
  ∧ (NoDup file_ids → NoDup (file_pairs file_ids))
  ∧ ((length file_ids ≤ 1)%nat →
     MultiFileAnalysisResult.relationships r = []
     ∧ MultiFileAnalysisResult.suggestions r = [fallback_suggestion]).
Proof.
  intros r file_ids. subst r.
  split; [|split; [|split; [|split]]].
  - rewrite analyze_suggestions. fold file_ids. f_equal.
    by destruct (MultiFileAnalysisResult.relationships _).
  - apply file_pairs_elem_of.
  - apply file_pairs_length.
  - apply file_pairs_NoDup.
  - intros Hn.
    assert (Hrel : MultiFileAnalysisResult.relationships
                     (analyze_collection E fc) = []).
    { rewrite analyze_relationships. fold file_ids.
      by rewrite file_pairs_short. }
    split; [done|].
    rewrite analyze_suggestions, Hrel. fold file_ids.
    by rewrite file_pairs_short.
Qed.

(** C10. Every record the analysis emits has the same source and target
    column name and the type ["potential_join"]; its source file stands
    strictly before its target file in the iteration order of the schema
    mapping; and, the keys of that mapping being distinct, source and target
    file differ and no other record relates the same two files the other
    way round. *)
Theorem relationship_record_invariant (E : Env) (fc : FileCollection)
    (r : RelationshipInfo.t) :
  let file_ids := map fst (get_schemas fc) in
  let rels := MultiFileAnalysisResult.relationships (analyze_collection E fc) in
  NoDup file_ids →
  r ∈ rels →
  RelationshipInfo.source_column r = RelationshipInfo.target_column r
  ∧ RelationshipInfo.relationship_type r = "potential_join"
  ∧ (∃ i j : nat, (i < j)%nat
       ∧ file_ids !! i = Some (RelationshipInfo.source_file r)
       ∧ file_ids !! j = Some (RelationshipInfo.target_file r))
  ∧ RelationshipInfo.source_file r ≠ RelationshipInfo.target_file r
  ∧ ∀ r', r' ∈ rels →
      ¬ (RelationshipInfo.source_file r' = RelationshipInfo.target_file r
         ∧ RelationshipInfo.target_file r' = RelationshipInfo.source_file r).
Proof.
  intros file_ids rels Hnd Hr.
  assert (Horigin : ∀ x, x ∈ rels →
    RelationshipInfo.source_column x = RelationshipInfo.target_column x
    ∧ RelationshipInfo.relationship_type x = "potential_join"
    ∧ ∃ i j : nat, (i < j)%nat
        ∧ file_ids !! i = Some (RelationshipInfo.source_file x)
        ∧ file_ids !! j = Some (RelationshipInfo.target_file x)).
  { intros x Hx. subst rels. rewrite analyze_relationships in Hx.
    apply list_elem_of_bind in Hx as (p & Hx & Hp).
    apply pair_relationships_origin in Hx as (s1 & s2 & col & ->).
    apply file_pairs_elem_of in Hp. by simpl. }
  destruct (Horigin r Hr) as (Hcol & Hty & i & j & Hij & Hi & Hj).
  split; [done|]. split; [done|]. split; [by exists i, j|]. split.
  - intros Heq. rewrite <- Heq in Hj.
    pose proof (NoDup_lookup _ _ _ _ Hnd Hi Hj). lia.
  - intros r' Hr' [Hst Hts].
    destruct (Horigin r' Hr') as (_ & _ & i' & j' & Hij' & Hi' & Hj').
    rewrite Hst in Hi'. rewrite Hts in Hj'.
    pose proof (NoDup_lookup _ _ _ _ Hnd Hi Hj').
    pose proof (NoDup_lookup _ _ _ _ Hnd Hj Hi'). lia.
Qed.

(** ** The access guard *)

Ltac eff_unfold :=
  unfold mbind, mret, eff_mbind, eff_mret, eff_bind, eff_ret, try_except,
    try_except_ValueError, call, raise, logger_error in *.

Section Guard.

Context (E : Env).

Lemma malformed_first_malformed file_ids :
  malformed E file_ids ↔ is_Some (first_malformed E file_ids).
Proof.
  unfold malformed. induction file_ids as [|fid rest IH]; simpl.
  - split; [intros (? & ? & []%elem_of_nil & _) | by intros [? [=]]].
  - destruct (uuid_parse E fid) as [m|u] eqn:Hp.
    + split; [by eexists | intros _]. exists fid, m. split; [left | done].
    + rewrite <- IH. split.
      * intros (f & m & [->|Hin]%elem_of_cons & Hf); [congruence | eauto].
      * intros (f & m & Hin & Hf). exists f, m. split; [by right | done].
Qed.

Lemma uuid_file_ids_malformed file_ids m :
  first_malformed E file_ids = Some m →
  uuid_file_ids E file_ids = Eff (Raise (ValueError m)) [].
Proof.
  induction file_ids as [|fid rest IH]; simpl; [done|].
  destruct (uuid_parse E fid) as [m'|u]; [by intros [= ->]|].
  intros Hm. rewrite (IH Hm). done.
Qed.

Lemma load_file_collection_malformed file_ids user_id m :
  first_malformed E file_ids = Some m →
  load_file_collection E file_ids user_id
  = Eff (Raise (HTTPException 400%Z ("无效的 file_id 格式: " +:+ m))) [].
Proof.
  intros Hm. unfold load_file_collection.
  rewrite (uuid_file_ids_malformed _ _ Hm). done.
Qed.

Lemma validate_files_loop_first_offender user_id files valid_files :
  validate_files_loop E user_id files valid_files
  = match first_offender E user_id files with
    | Some file =>
        Eff (Raise (HTTPException 403%Z
                      ("无权访问文件: " +:+ File.filename file))) []
    | None => Eff (Return (valid_files ++ files)) []
    end.
Proof.
  revert valid_files. induction files as [|file rest IH]; intros acc; simpl.
  - by rewrite app_nil_r.
  - destruct (negb _); [done|]. rewrite IH.
    destruct (first_offender E user_id rest); [done|].
    by rewrite <- app_assoc.
Qed.

(** The guard names the first file the caller does not own, after the
    database lookup and nothing else. *)
Lemma validate_files_access_first_offender ids user_id files file :
  get_files_by_ids_from_db E ids = inr files →
  first_offender E user_id files = Some file →
  validate_files_access E ids user_id
  = Eff (Raise (HTTPException 403%Z ("无权访问文件: " +:+ File.filename file)))
        [EvGetFiles ids].
Proof.
  intros Hdb Hoff. unfold validate_files_access.
  rewrite Hdb. eff_unfold. simpl.
  rewrite validate_files_loop_first_offender, Hoff. done.
Qed.

End Guard.

(** ** The endpoints after the guard *)

Section Endpoints.

Context (E : Env) (user_id : UUID).

Lemma try_except_returns {A} (body : eff A) (handler : exn → eff A) :
  (∀ e, returned (handler e) = true) →
  returned (try_except body handler) = true.
Proof.
  intros Hh. unfold try_except, returned.
  destruct (result body) as [a|e] eqn:Hb; simpl.
  - by rewrite Hb.
  - apply Hh.
Qed.

(** The operation endpoints convert every exception into a returned
    envelope. *)
Lemma join_files_returns request :
  returned (join_files E request user_id) = true.
Proof.
  unfold join_files. by apply try_except_returns.
Qed.

Lemma merge_files_returns request :
  returned (merge_files E request user_id) = true.
Proof.
  unfold merge_files. by apply try_except_returns.
Qed.

Lemma cross_file_reference_returns request :
  returned (cross_file_reference E request user_id) = true.
Proof.
  unfold cross_file_reference. by apply try_except_returns.
Qed.

Lemma join_files_load_raises request e t :
  load_file_collection E
    [JoinRequest.left_file_id request; JoinRequest.right_file_id request]
    user_id = Eff (Raise e) t →
  join_files E request user_id
  = Eff (Return (Build_ApiResponse (Some 500%Z) (join_failure (str_exn E e))
                   (Some "连接操作失败")))
        (t ++ [EvLogError ("文件连接失败: " +:+ str_exn E e)]).
Proof. intros Hl. unfold join_files. eff_unfold. rewrite Hl. done. Qed.

Lemma merge_files_load_raises request e t :
  length (MergeRequest.file_ids request) = length (MergeRequest.tables request) →
  (2 ≤ length (MergeRequest.file_ids request))%nat →
  load_file_collection E (MergeRequest.file_ids request) user_id
  = Eff (Raise e) t →
  merge_files E request user_id
  = Eff (Return (Build_ApiResponse (Some 500%Z) (merge_failure (str_exn E e))
                   (Some "合并操作失败")))
        (t ++ [EvLogError ("文件合并失败: " +:+ str_exn E e)]).
Proof.
  intros Hlen Hmin Hl. unfold merge_files.
  rewrite (proj2 (Nat.eqb_eq _ _) Hlen), (proj2 (Nat.ltb_ge _ _) Hmin).
  eff_unfold. rewrite Hl. done.
Qed.

Lemma cross_file_reference_load_raises request e t :
  load_file_collection E
    [CrossReferenceRequest.source_file_id request;
     CrossReferenceRequest.target_file_id request]
    user_id = Eff (Raise e) t →
  cross_file_reference E request user_id
  = Eff (Return (Build_ApiResponse (Some 500%Z) (reference_failure (str_exn E e))
                   (Some "引用操作失败")))
        (t ++ [EvLogError ("跨文件引用失败: " +:+ str_exn E e)]).
Proof. intros Hl. unfold cross_file_reference. eff_unfold. rewrite Hl. done. Qed.

Lemma analyze_multifile_load_raises request e t :
  load_file_collection E (MultiFileAnalysisRequest.file_ids request) user_id
  = Eff (Raise e) t →
  analyze_multifile E request user_id
  = Eff (Raise (HTTPException 500%Z ("分析失败: " +:+ str_exn E e)))
        (t ++ [EvLogError ("多文件分析失败: " +:+ str_exn E e)]).
Proof. intros Hl. unfold analyze_multifile. eff_unfold. rewrite Hl. done. Qed.

End Endpoints.

Section Normalisation.

Context (E : Env) (user_id : UUID).

Lemma has_errors_true res :
  ExecutionResult.errors res ≠ [] → has_errors res = true.
Proof. unfold has_errors. by destruct (ExecutionResult.errors res). Qed.

Lemma has_errors_false res :
  ExecutionResult.errors res = [] → has_errors res = false.
Proof. unfold has_errors. by intros ->. Qed.

Lemma output_counts_lookup res file_id sheet_name :
  output_counts res file_id sheet_name
  = match output_sheet res file_id sheet_name with
    | Some rd => sheet_counts rd
    | None => (0, 0)%nat
    end.
Proof.
  unfold output_counts, output_sheet, sheet_counts.
  destruct (ExecutionResult.new_sheets res !! file_id) as [sheets|]; simpl;
    [|done].
  destruct (sheets !! sheet_name) as [rd|]; [|done].
  by destruct (rd_columns rd).
Qed.

Lemma join_files_engine_returns request res :
  result (run_engine E
            [JoinRequest.left_file_id request; JoinRequest.right_file_id request]
            user_id [OpJoin (join_operation request)]) = Return res →
  result (join_files E request user_id)
  = Return
      (if has_errors res then
         Build_ApiResponse (Some 400%Z)
           (join_failure (String.concat "; " (ExecutionResult.errors res)))
           (Some "连接操作失败")
       else
         let counts :=
           output_counts res (JoinRequest.left_file_id request)
             (JoinRequest.output_sheet_name request) in
         Build_ApiResponse None
           (JoinResult.mk true (Some (JoinRequest.left_file_id request))
              (Some (JoinRequest.output_sheet_name request))
              (Some counts.1) (Some counts.2) None)
           None).
Proof.
  unfold run_engine, join_files. eff_unfold.
  destruct (load_file_collection E _ user_id) as [[fc|e] t]; simpl; [|done].
  destruct (execute E fc _) as [e|res']; simpl; [done|].
  intros [= ->]. destruct (has_errors res); simpl; [done|].
  by destruct (output_counts res _ _).
Qed.

Lemma merge_files_engine_returns request res first :
  length (MergeRequest.file_ids request) = length (MergeRequest.tables request) →
  (2 ≤ length (MergeRequest.file_ids request))%nat →
  head (MergeRequest.file_ids request) = Some first →
  result (run_engine E (MergeRequest.file_ids request) user_id
            [OpMerge (merge_operation request)]) = Return res →
  result (merge_files E request user_id)
  = Return
      (if has_errors res then
         Build_ApiResponse (Some 400%Z)
           (merge_failure (String.concat "; " (ExecutionResult.errors res)))
           (Some "合并操作失败")
       else
         let counts :=
           output_counts res first (MergeRequest.output_sheet_name request) in
         Build_ApiResponse None
           (MergeResult.mk true (Some first)
              (Some (MergeRequest.output_sheet_name request))
              (Some counts.1) (Some counts.2) None)
           None).
Proof.
  intros Hlen Hmin Hfirst. unfold run_engine, merge_files.
  rewrite (proj2 (Nat.eqb_eq _ _) Hlen), (proj2 (Nat.ltb_ge _ _) Hmin).
  eff_unfold.
  destruct (load_file_collection E _ user_id) as [[fc|e] t]; simpl; [|done].
  destruct (execute E fc _) as [e|res']; simpl; [done|].
  intros [= ->]. destruct (has_errors res); simpl; [done|].
  destruct (MergeRequest.file_ids request) as [|f rest]; [done|].
  simpl in Hfirst. injection Hfirst as ->.
  by destruct (output_counts res _ _).
Qed.

Lemma cross_file_reference_engine_returns request res :
  result (run_engine E
            [CrossReferenceRequest.source_file_id request;
             CrossReferenceRequest.target_file_id request]
            user_id [OpCrossFileReference (reference_operation request)])
  = Return res →
  result (cross_file_reference E request user_id)
  = Return
      (if has_errors res then
         Build_ApiResponse (Some 400%Z)
           (reference_failure (String.concat "; " (ExecutionResult.errors res)))
           (Some "引用操作失败")
       else
         Build_ApiResponse None
           (CrossReferenceResult.mk true
              (Some (CrossReferenceRequest.target_file_id request))
              (Some (CrossReferenceRequest.target_table request))
              (Some (CrossReferenceRequest.target_column request))
              (if String.eqb (CrossReferenceRequest.reference_type request)
                             "formula"
               then head (ExecutionResult.excel_formulas res) else None)
              None)
           None).
Proof.
  unfold run_engine, cross_file_reference. eff_unfold.
  destruct (load_file_collection E _ user_id) as [[fc|e] t]; simpl; [|done].
  destruct (execute E fc _) as [e|res']; simpl; [done|].
  intros [= ->]. by destruct (has_errors res).
Qed.

Lemma uuid_file_ids_trace file_ids : trace (uuid_file_ids E file_ids) = [].
Proof.
  induction file_ids as [|fid rest IH]; simpl; [done|].
  destruct (uuid_parse E fid) as [m|u]; [done|].
  eff_unfold. destruct (uuid_file_ids E rest) as [[us|e] t]; simpl in *.
  - by rewrite IH.
  - done.
Qed.

(** Loading never reaches the engine. *)
Lemma load_file_collection_engine_calls file_ids :
  engine_calls (trace (load_file_collection E file_ids user_id)) = [].
Proof.
  unfold load_file_collection, validate_files_access.
  pose proof (uuid_file_ids_trace file_ids) as Ht.
  eff_unfold.
  destruct (uuid_file_ids E file_ids) as [[us|[s d|m|m]] t0];
    simpl in *; subst t0; try done.
  destruct (get_files_by_ids_from_db E us) as [e|files]; simpl; [done|].
  rewrite validate_files_loop_first_offender.
  destruct (first_offender E user_id files); simpl; [done|].
  by destruct (load_tables_from_files E files).
Qed.

(** Once the collection is loaded, the engine is called exactly once, with
    the one operation built from the request. *)
Lemma join_files_engine_calls request :
  returned (load_file_collection E
              [JoinRequest.left_file_id request; JoinRequest.right_file_id request]
              user_id) = true →
  engine_calls (trace (join_files E request user_id))
  = [[OpJoin (join_operation request)]].
Proof.
  intros Hl.
  pose proof (load_file_collection_engine_calls
    [JoinRequest.left_file_id request; JoinRequest.right_file_id request]) as Ht.
  unfold join_files, returned in *. eff_unfold.
  destruct (load_file_collection E _ user_id) as [[fc|e] t]; simpl in *;
    [|done].
  unfold engine_calls in *.
  destruct (execute E fc _) as [e|res]; simpl.
  - rewrite !omap_app, Ht. done.
  - destruct (has_errors res); simpl.
    + rewrite !omap_app, Ht. done.
    + destruct (output_counts res _ _). simpl.
      rewrite !omap_app, Ht. done.
Qed.

Lemma cross_file_reference_engine_calls request :
  returned (load_file_collection E
              [CrossReferenceRequest.source_file_id request;
               CrossReferenceRequest.target_file_id request]
              user_id) = true →
  engine_calls (trace (cross_file_reference E request user_id))
  = [[OpCrossFileReference (reference_operation request)]].
Proof.
  intros Hl.
  pose proof (load_file_collection_engine_calls
    [CrossReferenceRequest.source_file_id request;
     CrossReferenceRequest.target_file_id request]) as Ht.
  unfold cross_file_reference, returned in *. eff_unfold.
  destruct (load_file_collection E _ user_id) as [[fc|e] t]; simpl in *;
    [|done].
  unfold engine_calls in *.
  destruct (execute E fc _) as [e|res]; simpl.
  - rewrite !omap_app, Ht. done.
  - destruct (has_errors res); simpl; rewrite !omap_app, Ht; done.
Qed.

End Normalisation.

(** ** Protocol-level failures *)

(** C1. A join that names a file of another user, run on the demo
    deployment: the guard raises the 403 error naming the file after the
    database lookup alone, and [join_files] catches it, so that the caller
    receives a returned envelope with code 500 and [success = false] and no
    403 error is raised; neither the loader nor the engine is called. *)
Theorem join_foreign_file_returns_envelope :
  let E := Demo.env Demo.silent_engine in
  validate_files_access E [0xa%N; 0xc%N] Demo.alice
  = Eff (Raise (HTTPException 403%Z "无权访问文件: payroll.xlsx"))
        [EvGetFiles [0xa%N; 0xc%N]]
  ∧ join_files E Demo.join_foreign Demo.alice
    = Eff (Return (Build_ApiResponse (Some 500%Z)
                     (join_failure "403: 无权访问文件: payroll.xlsx")
                     (Some "连接操作失败")))
          [EvGetFiles [0xa%N; 0xc%N];
           EvLogError "文件连接失败: 403: 无权访问文件: payroll.xlsx"]
  ∧ raised_http 403%Z (join_files E Demo.join_foreign Demo.alice) = false
  ∧ calls_loader (trace (join_files E Demo.join_foreign Demo.alice)) = false
  ∧ calls_engine (trace (join_files E Demo.join_foreign Demo.alice)) = false.
Proof. repeat split; vm_compute; reflexivity. Qed.

(** C2, as stated, fails: a merge request whose only identifier does not
    parse is answered by the local validation with the minimum-file-count
    result, a returned envelope and not a raised 400 error. *)
Lemma merge_malformed_id_gets_count_message :
  let E := Demo.env Demo.silent_engine in
  malformed E (MergeRequest.file_ids Demo.merge_single_malformed)
  ∧ merge_files E Demo.merge_single_malformed Demo.alice
    = Eff (Return (Build_ApiResponse (Some 400%Z)
                     (merge_failure merge_count_error) (Some "参数错误")))
          []
  ∧ raised_http 400%Z (merge_files E Demo.merge_single_malformed Demo.alice)
    = false.
Proof.
  split; [|split; vm_compute; reflexivity].
  exists "not-a-uuid", "badly formed hexadecimal UUID string".
  split; [by left | vm_compute; reflexivity].
Qed.

(** C2, amended. When an identifier of the request does not parse as a
    UUID, [load_file_collection] raises the 400 error before anything else
    runs; the analyze, join and reference endpoints, and the merge endpoint
    once its two length checks pass, then reach neither the database, nor
    the loader, nor the engine, and do not report success. *)
Theorem malformed_identifier_stops_at_parsing (E : Env) (user_id : UUID) :
  (∀ file_ids, malformed E file_ids →
     ∃ m, load_file_collection E file_ids user_id
          = Eff (Raise (HTTPException 400%Z ("无效的 file_id 格式: " +:+ m))) [])
  ∧ (∀ request, malformed E (MultiFileAnalysisRequest.file_ids request) →
       let out := analyze_multifile E request user_id in
       touches_collaborators (trace out) = false ∧ returned out = false)
  ∧ (∀ request,
       malformed E [JoinRequest.left_file_id request;
                    JoinRequest.right_file_id request] →
       let out := join_files E request user_id in
       touches_collaborators (trace out) = false ∧ join_succeeded out = false)
  ∧ (∀ request,
       length (MergeRequest.file_ids request)
       = length (MergeRequest.tables request) →
       (2 ≤ length (MergeRequest.file_ids request))%nat →
       malformed E (MergeRequest.file_ids request) →
       let out := merge_files E request user_id in
       touches_collaborators (trace out) = false ∧ merge_succeeded out = false)
  ∧ (∀ request,
       malformed E [CrossReferenceRequest.source_file_id request;
                    CrossReferenceRequest.target_file_id request] →
       let out := cross_file_reference E request user_id in
       touches_collaborators (trace out) = false
       ∧ reference_succeeded out = false).
Proof.
  assert (Hload : ∀ file_ids, malformed E file_ids →
    ∃ m, load_file_collection E file_ids user_id
         = Eff (Raise (HTTPException 400%Z ("无效的 file_id 格式: " +:+ m))) []).
  { intros file_ids [m Hm]%malformed_first_malformed.
    exists m. by apply load_file_collection_malformed. }
  split; [exact Hload|]. split; [|split; [|split]].
  - intros request Hbad. destruct (Hload _ Hbad) as [m Hm]. simpl.
    by rewrite (analyze_multifile_load_raises _ _ _ _ _ Hm).
  - intros request Hbad. destruct (Hload _ Hbad) as [m Hm]. simpl.
    by rewrite (join_files_load_raises _ _ _ _ _ Hm).
  - intros request Hlen Hmin Hbad. destruct (Hload _ Hbad) as [m Hm]. simpl.
    by rewrite (merge_files_load_raises _ _ _ _ _ Hlen Hmin Hm).
  - intros request Hbad. destruct (Hload _ Hbad) as [m Hm]. simpl.
    by rewrite (cross_file_reference_load_raises _ _ _ _ _ Hm).
Qed.

(** ** Merge validation *)

(** C3. A merge request whose [file_ids] and [tables] differ in length, or
    which names fewer than two files, gets a returned envelope with
    [success = false] and the length-mismatch message (when the lengths
    differ) or the minimum-file-count message (otherwise); nothing is
    raised, and the trace is empty: no database lookup, no load, no engine
    call. *)
Theorem merge_validation_failure (E : Env) (request : MergeRequest.t)
    (user_id : UUID) :
  length (MergeRequest.file_ids request) ≠ length (MergeRequest.tables request)
  ∨ (length (MergeRequest.file_ids request) < 2)%nat →
  merge_files E request user_id
  = Eff (Return
           (Build_ApiResponse (Some 400%Z)
              (MergeResult.mk false None None None None
                 (Some (if decide (length (MergeRequest.file_ids request)
                                   = length (MergeRequest.tables request))
                        then merge_count_error else merge_length_error)))
              (Some "参数错误")))
        [].
Proof.
  intros Hbad. unfold merge_files.
  destruct (decide _) as [Heq|Hne].
  - rewrite (proj2 (Nat.eqb_eq _ _) Heq). simpl.
    destruct Hbad as [?|Hlt]; [done|].
    by rewrite (proj2 (Nat.ltb_lt _ _) Hlt).
  - by rewrite (proj2 (Nat.eqb_neq _ _) Hne).
Qed.

(** ** Result normalisation *)

(** C6. When a join or merge execution returns a result without errors,
    the endpoint returns [success = true] with the output reported under
    the left file id (join) or the first file id of the request (merge) and
    the requested output sheet name; the counts are those of
    [new_sheets[file id][sheet name]], and [0] and [0] when that key is
    absent, nothing being raised. *)
Theorem success_reports_policy_output (E : Env) (user_id : UUID) :
  (∀ request res,
     result (run_engine E
               [JoinRequest.left_file_id request;
                JoinRequest.right_file_id request]
               user_id [OpJoin (join_operation request)]) = Return res →
     ExecutionResult.errors res = [] →
     ∃ row_count column_count,
       result (join_files E request user_id)
       = Return (Build_ApiResponse None
                   (JoinResult.mk true (Some (JoinRequest.left_file_id request))
                      (Some (JoinRequest.output_sheet_name request))
                      (Some row_count) (Some column_count) None)
                   None)
       ∧ (output_sheet res (JoinRequest.left_file_id request)
            (JoinRequest.output_sheet_name request) = None →
          row_count = 0%nat ∧ column_count = 0%nat)
       ∧ (∀ rd,
            output_sheet res (JoinRequest.left_file_id request)
              (JoinRequest.output_sheet_name request) = Some rd →
            (row_count, column_count) = sheet_counts rd))
  ∧ (∀ request res first,
       length (MergeRequest.file_ids request)
       = length (MergeRequest.tables request) →
       (2 ≤ length (MergeRequest.file_ids request))%nat →
       head (MergeRequest.file_ids request) = Some first →
       result (run_engine E (MergeRequest.file_ids request) user_id
                 [OpMerge (merge_operation request)]) = Return res →
       ExecutionResult.errors res = [] →
       ∃ row_count column_count,
         result (merge_files E request user_id)
         = Return (Build_ApiResponse None
                     (MergeResult.mk true (Some first)
                        (Some (MergeRequest.output_sheet_name request))
                        (Some row_count) (Some column_count) None)
                     None)
         ∧ (output_sheet res first (MergeRequest.output_sheet_name request)
            = None →
            row_count = 0%nat ∧ column_count = 0%nat)
         ∧ (∀ rd,
              output_sheet res first (MergeRequest.output_sheet_name request)
              = Some rd →
              (row_count, column_count) = sheet_counts rd)).
Proof.
  split.
  - intros request res Hrun Herr.
    rewrite (join_files_engine_returns _ _ _ _ Hrun), (has_errors_false _ Herr).
    simpl. rewrite output_counts_lookup.
    destruct (output_sheet res _ _) as [rd|]; simpl.
    + exists (sheet_counts rd).1, (sheet_counts rd).2.
      split; [done|]. split; [done|]. by intros ? [= <-].
    + exists 0%nat, 0%nat. done.
  - intros request res first Hlen Hmin Hfirst Hrun Herr.
    rewrite (merge_files_engine_returns _ _ _ _ _ Hlen Hmin Hfirst Hrun),
      (has_errors_false _ Herr).
    simpl. rewrite output_counts_lookup.
    destruct (output_sheet res _ _) as [rd|]; simpl.
    + exists (sheet_counts rd).1, (sheet_counts rd).2.
      split; [done|]. split; [done|]. by intros ? [= <-].
    + exists 0%nat, 0%nat. done.
Qed.

(** C7. When a join, merge or cross-reference execution returns a result
    with at least one error, the endpoint returns one envelope whose
    [success] is [false], whose [error] is the engine's messages joined
    with ["; "] in order, and whose output fields are all unset. *)
Theorem engine_errors_joined_into_one_failure (E : Env) (user_id : UUID) :
  (∀ request res,
     result (run_engine E
               [JoinRequest.left_file_id request;
                JoinRequest.right_file_id request]
               user_id [OpJoin (join_operation request)]) = Return res →
     ExecutionResult.errors res ≠ [] →
     result (join_files E request user_id)
     = Return (Build_ApiResponse (Some 400%Z)
                 (JoinResult.mk false None None None None
                    (Some (String.concat "; " (ExecutionResult.errors res))))
                 (Some "连接操作失败")))
  ∧ (∀ request res,
       length (MergeRequest.file_ids request)
       = length (MergeRequest.tables request) →
       (2 ≤ length (MergeRequest.file_ids request))%nat →
       result (run_engine E (MergeRequest.file_ids request) user_id
                 [OpMerge (merge_operation request)]) = Return res →
       ExecutionResult.errors res ≠ [] →
       result (merge_files E request user_id)
       = Return (Build_ApiResponse (Some 400%Z)
                   (MergeResult.mk false None None None None
                      (Some (String.concat "; " (ExecutionResult.errors res))))
                   (Some "合并操作失败")))
  ∧ (∀ request res,
       result (run_engine E
                 [CrossReferenceRequest.source_file_id request;
                  CrossReferenceRequest.target_file_id request]
                 user_id [OpCrossFileReference (reference_operation request)])
       = Return res →
       ExecutionResult.errors res ≠ [] →
       result (cross_file_reference E request user_id)
       = Return (Build_ApiResponse (Some 400%Z)
                   (CrossReferenceResult.mk false None None None None
                      (Some (String.concat "; " (ExecutionResult.errors res))))
                   (Some "引用操作失败"))).
Proof.
  split; [|split].
  - intros request res Hrun Herr.
    by rewrite (join_files_engine_returns _ _ _ _ Hrun), (has_errors_true _ Herr).
  - intros request res Hlen Hmin Hrun Herr.
    destruct (MergeRequest.file_ids request) as [|first rest] eqn:Hids;
      [simpl in Hmin; lia|].
    rewrite <- Hids in Hrun, Hlen, Hmin.
    assert (Hfirst : head (MergeRequest.file_ids request) = Some first)
      by (by rewrite Hids).
    by rewrite (merge_files_engine_returns _ _ _ _ _ Hlen Hmin Hfirst Hrun),
      (has_errors_true _ Herr).
  - intros request res Hrun Herr.
    by rewrite (cross_file_reference_engine_returns _ _ _ _ Hrun),
      (has_errors_true _ Herr).
Qed.

(** ** Operation descriptors *)

(** C8, as stated, fails: a join request with an empty condition list,
    over two files the caller owns, is handed to the engine as a join
    operation with no condition, and the endpoint reports success. *)
Lemma join_without_conditions_is_forwarded :
  let E := Demo.env Demo.silent_engine in
  JoinRequest.conditions Demo.join_no_conditions = []
  ∧ engine_calls (trace (join_files E Demo.join_no_conditions Demo.alice))
    = [[OpJoin (join_operation Demo.join_no_conditions)]]
  ∧ JoinOperation.conditions (join_operation Demo.join_no_conditions) = []
  ∧ join_succeeded (join_files E Demo.join_no_conditions Demo.alice) = true.
Proof. repeat split; vm_compute; reflexivity. Qed.

(** C8, amended. A join request whose files load is handed to the engine,
    once, as the join operation carrying exactly the conditions of the
    request, whatever their number; with an empty list the operation has
    no condition. *)
Theorem join_forwards_any_condition_list (E : Env) (request : JoinRequest.t)
    (user_id : UUID) :
  returned (load_file_collection E
              [JoinRequest.left_file_id request; JoinRequest.right_file_id request]
              user_id) = true →
  engine_calls (trace (join_files E request user_id))
  = [[OpJoin (join_operation request)]]
  ∧ JoinOperation.conditions (join_operation request)
    = map join_condition (JoinRequest.conditions request)
  ∧ length (JoinOperation.conditions (join_operation request))
    = length (JoinRequest.conditions request)
  ∧ (JoinRequest.conditions request = [] →
     JoinOperation.conditions (join_operation request) = []).
Proof.
  intros Hl. split; [by apply join_files_engine_calls|].
  split; [done|]. split; [simpl; by rewrite length_map|].
  simpl. by intros ->.
Qed.

(** C9, as stated, fails: a cross-reference request that gives the empty
    string as output sheet name is handed to the engine with the in-place
    output, not with a new sheet of that name. *)
Lemma reference_empty_name_is_in_place :
  let E := Demo.env Demo.silent_engine in
  let request := Demo.reference_with (Some "") in
  CrossReferenceRequest.output_sheet_name request = Some ""
  ∧ engine_calls (trace (cross_file_reference E request Demo.alice))
    = [[OpCrossFileReference (reference_operation request)]]
  ∧ CrossFileReferenceOperation.output (reference_operation request) = in_place
  ∧ CrossFileReferenceOperation.output (reference_operation request)
    ≠ new_sheet "".
Proof.
  split; [reflexivity|]. split; [vm_compute; reflexivity|].
  split; [reflexivity | discriminate].
Qed.

(** C9, amended. The operation a cross-reference request hands to the
    engine has the in-place output when the output sheet name is absent or
    the empty string, and the new-sheet output carrying exactly that name
    when the name is a non-empty string. *)
Theorem reference_output_follows_name (E : Env)
    (request : CrossReferenceRequest.t) (user_id : UUID) :
  returned (load_file_collection E
              [CrossReferenceRequest.source_file_id request;
               CrossReferenceRequest.target_file_id request]
              user_id) = true →
  engine_calls (trace (cross_file_reference E request user_id))
  = [[OpCrossFileReference (reference_operation request)]]
  ∧ (CrossReferenceRequest.output_sheet_name request = None
     ∨ CrossReferenceRequest.output_sheet_name request = Some "" →
     CrossFileReferenceOperation.output (reference_operation request) = in_place)
  ∧ (∀ name,
       CrossReferenceRequest.output_sheet_name request = Some name →
       name ≠ "" →
       CrossFileReferenceOperation.output (reference_operation request)
       = new_sheet name).
Proof.
  intros Hl. split; [by apply cross_file_reference_engine_calls|].
  simpl. split.
  - by intros [-> | ->].
  - intros name -> Hne. by destruct name.
Qed.

(** * The theorems at concrete inputs *)

Lemma malformed_identifier_stops_at_parsing_witness :
  let E := Demo.env Demo.silent_engine in
  malformed E
    [JoinRequest.left_file_id Demo.join_malformed;
     JoinRequest.right_file_id Demo.join_malformed]
  ∧ touches_collaborators
      (trace (join_files E Demo.join_malformed Demo.alice)) = false
  ∧ join_succeeded (join_files E Demo.join_malformed Demo.alice) = false
  ∧ returned (analyze_multifile E Demo.analysis_malformed Demo.alice) = false
  ∧ merge_succeeded (merge_files E Demo.merge_malformed Demo.alice) = false
  ∧ reference_succeeded
      (cross_file_reference E Demo.reference_malformed Demo.alice) = false.
Proof.
  intros E.
  assert (Hparse : uuid_parse E "not-a-uuid"
                   = inl "badly formed hexadecimal UUID string")
    by (vm_compute; reflexivity).
  assert (Hjoin : malformed E
            [JoinRequest.left_file_id Demo.join_malformed;
             JoinRequest.right_file_id Demo.join_malformed]).
  { exists "not-a-uuid", "badly formed hexadecimal UUID string".
    split; [apply list_elem_of_here | exact Hparse]. }
  assert (Hsecond : malformed E [Demo.orders_id; "not-a-uuid"]).
  { exists "not-a-uuid", "badly formed hexadecimal UUID string".
    split; [apply list_elem_of_further, list_elem_of_here | exact Hparse]. }
  assert (Hfirst : malformed E ["not-a-uuid"; Demo.customers_id]).
  { exists "not-a-uuid", "badly formed hexadecimal UUID string".
    split; [apply list_elem_of_here | exact Hparse]. }
  destruct (malformed_identifier_stops_at_parsing E Demo.alice)
    as (_ & Han & Hjn & Hmg & Hrf).
  split; [exact Hjoin|].
  split; [exact (proj1 (Hjn Demo.join_malformed Hjoin))|].
  split; [exact (proj2 (Hjn Demo.join_malformed Hjoin))|].
  split; [exact (proj2 (Han Demo.analysis_malformed Hsecond))|].
  split.
  - refine (proj2 (Hmg Demo.merge_malformed eq_refl _ Hsecond)).
    simpl. lia.
  - exact (proj2 (Hrf Demo.reference_malformed Hfirst)).
Defined.

Lemma merge_validation_failure_witness :
  let E := Demo.env Demo.silent_engine in
  (length (MergeRequest.file_ids Demo.merge_mismatch)
   ≠ length (MergeRequest.tables Demo.merge_mismatch)
   ∨ (length (MergeRequest.file_ids Demo.merge_mismatch) < 2)%nat)
  ∧ merge_files E Demo.merge_mismatch Demo.alice
    = Eff (Return (Build_ApiResponse (Some 400%Z)
                     (MergeResult.mk false None None None None
                        (Some merge_length_error))
                     (Some "参数错误"))) []
  ∧ merge_files E Demo.merge_single Demo.alice
    = Eff (Return (Build_ApiResponse (Some 400%Z)
                     (MergeResult.mk false None None None None
                        (Some merge_count_error))
                     (Some "参数错误"))) [].
Proof.
  intros E.
  assert (Hmis : length (MergeRequest.file_ids Demo.merge_mismatch)
                 ≠ length (MergeRequest.tables Demo.merge_mismatch)
                 ∨ (length (MergeRequest.file_ids Demo.merge_mismatch) < 2)%nat)
    by (left; simpl; lia).
  split; [exact Hmis|]. split.
  - exact (merge_validation_failure E Demo.merge_mismatch Demo.alice Hmis).
  - refine (merge_validation_failure E Demo.merge_single Demo.alice _).
    right. simpl. lia.
Defined.

Lemma relationships_one_per_shared_column_witness :
  let E := Demo.env Demo.silent_engine in
  let count fc :=
    length (MultiFileAnalysisResult.relationships (analyze_collection E fc)) in
  set_iter_sound E
  ∧ count Demo.one_shared = 1%nat
  ∧ count Demo.two_shared = 2%nat
  ∧ count Demo.shared_twice = 3%nat
  ∧ count Demo.none_shared = 0%nat.
Proof.
  intros E count.
  assert (Hs : set_iter_sound E) by (intros cols1 cols2; reflexivity).
  split; [exact Hs|]. unfold count.
  split; [|split; [|split]].
  - rewrite (proj1 (proj2
      (relationships_one_per_shared_column E Demo.one_shared Hs))).
    vm_compute. reflexivity.
  - rewrite (proj1 (proj2
      (relationships_one_per_shared_column E Demo.two_shared Hs))).
    vm_compute. reflexivity.
  - rewrite (proj1 (proj2
      (relationships_one_per_shared_column E Demo.shared_twice Hs))).
    vm_compute. reflexivity.
  - rewrite (proj1 (proj2
      (relationships_one_per_shared_column E Demo.none_shared Hs))).
    vm_compute. reflexivity.
Defined.

Lemma suggestions_one_per_pair_plus_fallback_witness :
  let E := Demo.env Demo.silent_engine in
  let fc := Demo.collection_of [Demo.orders] in
  (length (map fst (get_schemas fc)) ≤ 1)%nat
  ∧ MultiFileAnalysisResult.relationships (analyze_collection E fc) = []
  ∧ MultiFileAnalysisResult.suggestions (analyze_collection E fc)
    = [fallback_suggestion].
Proof.
  intros E fc.
  assert (Hn : (length (map fst (get_schemas fc)) ≤ 1)%nat) by (simpl; lia).
  split; [exact Hn|].
  pose proof (suggestions_one_per_pair_plus_fallback E fc) as H.
  simpl in H. destruct H as (_ & _ & _ & _ & H).
  apply H. lia.
Defined.

Lemma relationship_record_invariant_witness :
  let E := Demo.env Demo.silent_engine in
  let fc := Demo.shared_twice in
  let r := potential_join Demo.orders_id "Sheet1" Demo.customers_id "Archive" "id" in
  NoDup (map fst (get_schemas fc))
  ∧ r ∈ MultiFileAnalysisResult.relationships (analyze_collection E fc)
  ∧ RelationshipInfo.source_file r ≠ RelationshipInfo.target_file r.
Proof.
  intros E fc r.
  assert (Hnd : NoDup (map fst (get_schemas fc))).
  { apply NoDup_cons. split; [|apply NoDup_singleton].
    intros Hin%list_elem_of_singleton. discriminate Hin. }
  assert (Hr : r ∈ MultiFileAnalysisResult.relationships
                     (analyze_collection E fc)).
  { apply list_elem_of_lookup. exists 2%nat. vm_compute. reflexivity. }
  split; [exact Hnd|]. split; [exact Hr|].
  exact (proj1 (proj2 (proj2 (proj2
    (relationship_record_invariant E fc r Hnd Hr))))).
Defined.

Lemma success_reports_policy_output_witness :
  let silent := Demo.env Demo.silent_engine in
  let writing := Demo.env Demo.writing_engine in
  ExecutionResult.errors (ExecutionResult.mk [] ∅ []) = []
  ∧ result (join_files silent Demo.join_own Demo.alice)
    = Return (Build_ApiResponse None
                (JoinResult.mk true (Some Demo.orders_id) (Some "out")
                   (Some 0%nat) (Some 0%nat) None)
                None)
  ∧ result (merge_files writing Demo.merge_own Demo.alice)
    = Return (Build_ApiResponse None
                (MergeResult.mk true (Some Demo.orders_id) (Some "out")
                   (Some 3%nat) (Some 2%nat) None)
                None).
Proof.
  intros silent writing. split; [reflexivity|]. split.
  - destruct (proj1 (success_reports_policy_output silent Demo.alice)
                Demo.join_own (ExecutionResult.mk [] ∅ []))
      as (rows & cols & Hres & Habsent & _).
    + vm_compute. reflexivity.
    + reflexivity.
    + destruct Habsent as [-> ->]; [vm_compute; reflexivity|]. exact Hres.
  - destruct (proj2 (success_reports_policy_output writing Demo.alice)
                Demo.merge_own
                (ExecutionResult.mk []
                   {[ Demo.orders_id :=
                        {[ "out" := {| rd_len := 3;
                                       rd_columns := Some ["id"; "name"] |} ]} ]}
                   [])
                Demo.orders_id)
      as (rows & cols & Hres & _ & Hpresent).
    + reflexivity.
    + simpl. lia.
    + reflexivity.
    + vm_compute. reflexivity.
    + reflexivity.
    + specialize (Hpresent {| rd_len := 3; rd_columns := Some ["id"; "name"] |}).
      assert (Hc : (rows, cols) = (3, 2)%nat)
        by (apply Hpresent; vm_compute; reflexivity).
      injection Hc as -> ->. exact Hres.
Defined.

Lemma engine_errors_joined_into_one_failure_witness :
  let E := Demo.env Demo.failing_engine in
  let res := ExecutionResult.mk ["left table not found"; "no rows"] ∅ [] in
  ExecutionResult.errors res ≠ []
  ∧ result (join_files E Demo.join_own Demo.alice)
    = Return (Build_ApiResponse (Some 400%Z)
                (JoinResult.mk false None None None None
                   (Some "left table not found; no rows"))
                (Some "连接操作失败"))
  ∧ result (merge_files E Demo.merge_own Demo.alice)
    = Return (Build_ApiResponse (Some 400%Z)
                (MergeResult.mk false None None None None
                   (Some "left table not found; no rows"))
                (Some "合并操作失败"))
  ∧ result (cross_file_reference E (Demo.reference_with None) Demo.alice)
    = Return (Build_ApiResponse (Some 400%Z)
                (CrossReferenceResult.mk false None None None None
                   (Some "left table not found; no rows"))
                (Some "引用操作失败")).
Proof.
  intros E res.
  assert (Herr : ExecutionResult.errors res ≠ []) by discriminate.
  destruct (engine_errors_joined_into_one_failure E Demo.alice)
    as (Hjn & Hmg & Hrf).
  split; [exact Herr|]. split; [|split].
  - refine (Hjn Demo.join_own res _ Herr). vm_compute. reflexivity.
  - refine (Hmg Demo.merge_own res eq_refl _ _ Herr).
    + simpl. lia.
    + vm_compute. reflexivity.
  - refine (Hrf (Demo.reference_with None) res _ Herr). vm_compute. reflexivity.
Defined.

Lemma join_forwards_any_condition_list_witness :
  let E := Demo.env Demo.silent_engine in
  returned (load_file_collection E
              [JoinRequest.left_file_id Demo.join_no_conditions;
               JoinRequest.right_file_id Demo.join_no_conditions]
              Demo.alice) = true
  ∧ JoinRequest.conditions Demo.join_no_conditions = []
  ∧ engine_calls (trace (join_files E Demo.join_no_conditions Demo.alice))
    = [[OpJoin (join_operation Demo.join_no_conditions)]]
  ∧ JoinOperation.conditions (join_operation Demo.join_no_conditions) = [].
Proof.
  intros E.
  assert (Hl : returned (load_file_collection E
                 [JoinRequest.left_file_id Demo.join_no_conditions;
                  JoinRequest.right_file_id Demo.join_no_conditions]
                 Demo.alice) = true) by (vm_compute; reflexivity).
  destruct (join_forwards_any_condition_list E Demo.join_no_conditions
              Demo.alice Hl) as (Hcalls & _ & _ & Hnone).
  split; [exact Hl|]. split; [reflexivity|]. split; [exact Hcalls|].
  apply Hnone. reflexivity.
Defined.

Lemma reference_output_follows_name_witness :
  let E := Demo.env Demo.silent_engine in
  let request := Demo.reference_with (Some "summary") in
  returned (load_file_collection E
              [CrossReferenceRequest.source_file_id request;
               CrossReferenceRequest.target_file_id request]
              Demo.alice) = true
  ∧ "summary" ≠ ""
  ∧ CrossFileReferenceOperation.output (reference_operation request)
    = new_sheet "summary"
  ∧ CrossFileReferenceOperation.output
      (reference_operation (Demo.reference_with None)) = in_place.
Proof.
  intros E request.
  assert (Hl : returned (load_file_collection E
                 [CrossReferenceRequest.source_file_id request;
                  CrossReferenceRequest.target_file_id request]
                 Demo.alice) = true) by (vm_compute; reflexivity).
  assert (Hne : "summary" ≠ "") by discriminate.
  destruct (reference_output_follows_name E request Demo.alice Hl)
    as (_ & _ & Hnew).
  destruct (reference_output_follows_name E (Demo.reference_with None)
              Demo.alice Hl) as (_ & Hin & _).
  split; [exact Hl|]. split; [exact Hne|]. split.
  - exact (Hnew "summary" eq_refl Hne).
  - apply Hin. left. reflexivity.
Defined.

(** ** Sample runs *)

(** Two files with no shared column: one message for the pair, then the
    fallback. *)
Example analysis_without_shared_columns :
  let r := analyze_collection (Demo.env Demo.silent_engine) Demo.none_shared in
  MultiFileAnalysisResult.relationships r = []
  ∧ MultiFileAnalysisResult.suggestions r
    = ["文件 'orders.xlsx' 和 'payroll.xlsx' 可以通过共同列名进行关联";
       fallback_suggestion].
Proof. split; vm_compute; reflexivity. Qed.

(** A column name shared in two sheet pairs gives two records. *)
Example analysis_repeats_shared_name :
  let r := analyze_collection (Demo.env Demo.silent_engine) Demo.shared_twice in
  MultiFileAnalysisResult.relationships r
  = [potential_join Demo.orders_id "Sheet1" Demo.customers_id "Sheet1" "customer_id";
     potential_join Demo.orders_id "Sheet1" Demo.customers_id "Archive" "customer_id";
     potential_join Demo.orders_id "Sheet1" Demo.customers_id "Archive" "id"]
  ∧ MultiFileAnalysisResult.suggestions r
    = ["文件 'orders.xlsx' 和 'customers.xlsx' 可以通过共同列名进行关联"].
Proof. split; vm_compute; reflexivity. Qed.

(** A malformed identifier in a join: the 400 error of the helper comes
    back as a returned envelope. *)
Example join_malformed_identifier_run :
  join_files (Demo.env Demo.silent_engine) Demo.join_malformed Demo.alice
  = Eff (Return (Build_ApiResponse (Some 500%Z)
                   (join_failure
                      "400: 无效的 file_id 格式: badly formed hexadecimal UUID string")
                   (Some "连接操作失败")))
        [EvLogError
           "文件连接失败: 400: 无效的 file_id 格式: badly formed hexadecimal UUID string"].
Proof. vm_compute. reflexivity. Qed.

(** * Further properties of the routes *)

(** ** Outcomes of the guard and of loading *)

Section LoadOutcome.

Context (E : Env) (user_id : UUID).

Lemma parses_to_uuid_file_ids file_ids ids :
  parses_to E file_ids ids →
  uuid_file_ids E file_ids = Eff (Return ids) [].
Proof.
  induction 1 as [|fid u file_ids ids Hp _ IH]; simpl; [done|].
  rewrite Hp, IH. done.
Qed.

Lemma first_malformed_None file_ids :
  first_malformed E file_ids = None → ∃ ids, parses_to E file_ids ids.
Proof.
  induction file_ids as [|fid rest IH]; simpl.
  - intros _. exists []. constructor.
  - destruct (uuid_parse E fid) as [m|u] eqn:Hp; [done|].
    intros [ids Hids]%IH. exists (u :: ids). by constructor.
Qed.

Lemma first_offender_None files :
  first_offender E user_id files = None
  ↔ Forall (λ file, owned_by E user_id file = true) files.
Proof.
  unfold first_offender, owned_by. induction files as [|file rest IH]; simpl.
  - split; [constructor | done].
  - destruct (String.eqb _ _) eqn:Ho; simpl.
    + rewrite IH. split; [by constructor | by inversion 1].
    + split; [done | inversion 1; congruence].
Qed.

Lemma first_offender_Some files file :
  first_offender E user_id files = Some file →
  ∃ pre post, files = pre ++ file :: post
    ∧ Forall (λ f, owned_by E user_id f = true) pre
    ∧ owned_by E user_id file = false.
Proof.
  unfold first_offender, owned_by. induction files as [|f rest IH]; simpl; [done|].
  destruct (String.eqb (uuid_str E (File.user_id f)) _) eqn:Ho; simpl.
  - intros (pre & post & -> & Hpre & Hf)%IH.
    exists (f :: pre), post. split; [done|]. split; [by constructor | done].
  - intros [= <-]. exists [], rest. split; [done|]. split; [constructor | done].
Qed.

Lemma first_offender_app pre file post :
  Forall (λ f, owned_by E user_id f = true) pre →
  owned_by E user_id file = false →
  first_offender E user_id (pre ++ file :: post) = Some file.
Proof.
  unfold first_offender, owned_by.
  induction 1 as [|f pre Hf _ IH]; intros Hfile; simpl.
  - by rewrite Hfile.
  - rewrite Hf. simpl. by apply IH.
Qed.

Lemma load_file_collection_outcome file_ids :
  load_outcome E user_id file_ids (load_file_collection E file_ids user_id).
Proof.
  destruct (first_malformed E file_ids) as [m|] eqn:Hm.
  - rewrite (load_file_collection_malformed _ _ _ _ Hm). by constructor.
  - destruct (first_malformed_None _ Hm) as [ids Hids].
    unfold load_file_collection, validate_files_access.
    rewrite (parses_to_uuid_file_ids _ _ Hids). eff_unfold. simpl.
    destruct (get_files_by_ids_from_db E ids) as [e|files] eqn:Hdb; simpl.
    + by eapply LoadLookupRaises.
    + rewrite validate_files_loop_first_offender.
      destruct (first_offender E user_id files) as [file|] eqn:Hoff; simpl.
      * by eapply LoadForeign.
      * destruct (load_tables_from_files E files) as [e|fc] eqn:Hld; simpl.
        -- by eapply LoadLoaderRaises.
        -- by eapply LoadReturns.
Qed.

End LoadOutcome.

(** ** The endpoints, case by case *)

Section EndpointCases.

Context (E : Env) (user_id : UUID).

Lemma join_files_after_load request :
  join_files E request user_id
  = after_load E
      (load_file_collection E
         [JoinRequest.left_file_id request; JoinRequest.right_file_id request]
         user_id)
      [OpJoin (join_operation request)] "文件连接失败: "
      (join_caught E) (join_normalised request).
Proof.
  unfold join_files, after_load, join_caught, join_normalised. eff_unfold.
  destruct (load_file_collection E _ user_id) as [[fc|e] t]; simpl; [|done].
  destruct (execute E fc _) as [e|res]; simpl.
  - by rewrite <- ?app_assoc.
  - destruct (has_errors res); simpl; [by rewrite ?app_nil_r|].
    destruct (output_counts res _ _). simpl. by rewrite ?app_nil_r.
Qed.

Lemma merge_files_after_load request first :
  length (MergeRequest.file_ids request) = length (MergeRequest.tables request) →
  head (MergeRequest.file_ids request) = Some first →
  (2 ≤ length (MergeRequest.file_ids request))%nat →
  merge_files E request user_id
  = after_load E
      (load_file_collection E (MergeRequest.file_ids request) user_id)
      [OpMerge (merge_operation request)] "文件合并失败: "
      (merge_caught E) (merge_normalised request first).
Proof.
  intros Hlen Hfirst Hmin.
  unfold merge_files, after_load, merge_caught, merge_normalised.
  rewrite (proj2 (Nat.eqb_eq _ _) Hlen), (proj2 (Nat.ltb_ge _ _) Hmin).
  eff_unfold.
  destruct (load_file_collection E _ user_id) as [[fc|e] t]; simpl; [|done].
  destruct (execute E fc _) as [e|res]; simpl.
  - by rewrite <- ?app_assoc.
  - destruct (has_errors res); simpl; [by rewrite ?app_nil_r|].
    destruct (MergeRequest.file_ids request) as [|f rest]; [done|].
    simpl in Hfirst. injection Hfirst as ->.
    destruct (output_counts res _ _). simpl. by rewrite ?app_nil_r.
Qed.

Lemma cross_file_reference_after_load request :
  cross_file_reference E request user_id
  = after_load E
      (load_file_collection E
         [CrossReferenceRequest.source_file_id request;
          CrossReferenceRequest.target_file_id request]
         user_id)
      [OpCrossFileReference (reference_operation request)] "跨文件引用失败: "
      (reference_caught E) (reference_normalised request).
Proof.
  unfold cross_file_reference, after_load, reference_caught,
    reference_normalised. eff_unfold.
  destruct (load_file_collection E _ user_id) as [[fc|e] t]; simpl; [|done].
  destruct (execute E fc _) as [e|res]; simpl.
  - by rewrite <- ?app_assoc.
  - destruct (has_errors res); simpl; by rewrite ?app_nil_r.
Qed.

Lemma analyze_multifile_after_load request :
  analyze_multifile E request user_id
  = let load :=
      load_file_collection E (MultiFileAnalysisRequest.file_ids request)
        user_id in
    match result load with
    | Raise e =>
        Eff (Raise (HTTPException 500%Z ("分析失败: " +:+ str_exn E e)))
            (trace load ++ [EvLogError ("多文件分析失败: " +:+ str_exn E e)])
    | Return fc =>
        Eff (Return (Build_ApiResponse None (analyze_collection E fc) None))
            (trace load)
    end.
Proof.
  unfold analyze_multifile. eff_unfold.
  destruct (load_file_collection E _ user_id) as [[fc|e] t]; simpl; [|done].
  by rewrite ?app_nil_r.
Qed.

(** Collaborator calls of a load, by outcome. *)
Lemma load_outcome_calls file_ids load :
  load_outcome E user_id file_ids load →
  match result load with
  | Return _ => collaborator_calls (trace load) = [Database; Loader]
  | Raise _ =>
      collaborator_calls (trace load) `prefix_of` [Database; Loader]
  end
  ∧ logged (trace load) = []
  ∧ Forall (Forall (λ file, owned_by E user_id file = true))
           (loader_calls (trace load)).
Proof.
  destruct 1 as [m Hm|ids e Hp Hdb|ids files file Hp Hdb Hoff
                |ids files e Hp Hdb Hoff Hld|ids files fc Hp Hdb Hoff Hld];
    simpl; (split; [|split; [done|]]);
    try (by apply prefix_nil);
    try (by apply prefix_cons, prefix_nil);
    try done;
    try (by constructor);
    try (constructor; [by apply first_offender_None | constructor]).
Qed.

End EndpointCases.

Section AfterLoad.

Context {A : Type} (E : Env) (load : eff FileCollection)
  (ops : list operation) (log_prefix : string)
  (caught : exn → ApiResponse A) (normalised : ExecutionResult.t → ApiResponse A).

Lemma after_load_returned :
  returned (after_load E load ops log_prefix caught normalised) = true.
Proof.
  unfold after_load, returned.
  destruct (result load) as [fc|e]; [|done].
  by destruct (execute E fc ops).
Qed.

Lemma after_load_loader_calls :
  loader_calls (trace (after_load E load ops log_prefix caught normalised))
  = loader_calls (trace load).
Proof.
  unfold after_load, loader_calls.
  destruct (result load) as [fc|e]; simpl.
  - destruct (execute E fc ops); simpl; rewrite omap_app; simpl;
      by rewrite app_nil_r.
  - rewrite omap_app. simpl. by rewrite app_nil_r.
Qed.

Lemma after_load_collaborator_calls :
  collaborator_calls (trace (after_load E load ops log_prefix caught normalised))
  = collaborator_calls (trace load)
    ++ match result load with Return _ => [Engine] | Raise _ => [] end.
Proof.
  unfold after_load, collaborator_calls.
  destruct (result load) as [fc|e]; simpl.
  - destruct (execute E fc ops); simpl; by rewrite omap_app.
  - by rewrite omap_app.
Qed.

Lemma after_load_engine_calls :
  engine_calls (trace load) = [] →
  engine_calls (trace (after_load E load ops log_prefix caught normalised))
  = match result load with Return _ => [ops] | Raise _ => [] end.
Proof.
  intros Hl. unfold after_load, engine_calls in *.
  destruct (result load) as [fc|e]; simpl.
  - destruct (execute E fc ops); simpl; by rewrite omap_app, Hl.
  - by rewrite omap_app, Hl.
Qed.

Lemma after_load_logged :
  logged (trace load) = [] →
  logged (trace (after_load E load ops log_prefix caught normalised))
  = match result load with
    | Raise e => [log_prefix +:+ str_exn E e]
    | Return fc =>
        match execute E fc ops with
        | inl e => [log_prefix +:+ str_exn E e]
        | inr _ => []
        end
    end.
Proof.
  intros Hl. unfold after_load, logged in *.
  destruct (result load) as [fc|e]; simpl.
  - destruct (execute E fc ops); simpl; by rewrite omap_app, Hl.
  - by rewrite omap_app, Hl.
Qed.

End AfterLoad.

Section MergeCases.

Context (E : Env) (user_id : UUID).

(** [merge_files] either stops at its own validation, with an empty trace,
    or goes on like the other two operation endpoints. *)
Lemma merge_files_cases request :
  (∃ m, (m = merge_length_error ∨ m = merge_count_error)
        ∧ merge_files E request user_id
          = Eff (Return (Build_ApiResponse (Some 400%Z) (merge_failure m)
                           (Some "参数错误"))) [])
  ∨ (∃ first,
       length (MergeRequest.file_ids request)
       = length (MergeRequest.tables request)
       ∧ (2 ≤ length (MergeRequest.file_ids request))%nat
       ∧ head (MergeRequest.file_ids request) = Some first
       ∧ merge_files E request user_id
         = after_load E
             (load_file_collection E (MergeRequest.file_ids request) user_id)
             [OpMerge (merge_operation request)] "文件合并失败: "
             (merge_caught E) (merge_normalised request first)).
Proof.
  destruct (decide (length (MergeRequest.file_ids request)
                    = length (MergeRequest.tables request))) as [Hlen|Hlen].
  - destruct (decide (2 ≤ length (MergeRequest.file_ids request))%nat)
      as [Hmin|Hmin].
    + right.
      destruct (MergeRequest.file_ids request) as [|first rest] eqn:Hids;
        [simpl in Hmin; lia|].
      exists first. rewrite <- Hids in *.
      assert (Hfirst : head (MergeRequest.file_ids request) = Some first)
        by (by rewrite Hids).
      split; [done|]. split; [done|]. split; [done|].
      by apply merge_files_after_load.
    + left. exists merge_count_error. split; [by right|].
      unfold merge_files.
      rewrite (proj2 (Nat.eqb_eq _ _) Hlen). simpl.
      rewrite (proj2 (Nat.ltb_lt _ _)) by lia. done.
  - left. exists merge_length_error. split; [by left|].
    unfold merge_files. by rewrite (proj2 (Nat.eqb_neq _ _) Hlen).
Qed.

End MergeCases.

(** ** The access guard and the loader *)

(** X1. Given the rows the database returns for the requested ids,
    [validate_files_access] returns exactly when every row belongs to the
    caller, and then returns those rows unchanged and in order, after the
    lookup and nothing else.  The rows are not compared with the ids asked
    for. *)
Theorem guard_returns_rows_iff_all_owned (E : Env) (ids : list UUID)
    (user_id : UUID) (files : list File.t) :
  get_files_by_ids_from_db E ids = inr files →
  (returned (validate_files_access E ids user_id) = true
   ↔ Forall (λ file, owned_by E user_id file = true) files)
  ∧ (Forall (λ file, owned_by E user_id file = true) files →
     validate_files_access E ids user_id = Eff (Return files) [EvGetFiles ids]).
Proof.
  intros Hdb.
  assert (Heq : validate_files_access E ids user_id
    = match first_offender E user_id files with
      | Some file =>
          Eff (Raise (HTTPException 403%Z
                        ("无权访问文件: " +:+ File.filename file)))
              [EvGetFiles ids]
      | None => Eff (Return files) [EvGetFiles ids]
      end).
  { unfold validate_files_access. rewrite Hdb. eff_unfold. simpl.
    rewrite validate_files_loop_first_offender.
    by destruct (first_offender E user_id files). }
  rewrite Heq. rewrite <- first_offender_None.
  split.
  - unfold returned.
    destruct (first_offender E user_id files); simpl; split; done.
  - by intros ->.
Qed.

(** X2. When the rows the database returns begin with rows of the caller
    followed by a row of somebody else, [validate_files_access] raises the
    403 error naming that row's file, whatever rows come after it. *)
Theorem guard_stops_at_first_foreign_row (E : Env) (ids : list UUID)
    (user_id : UUID) (pre post : list File.t) (file : File.t) :
  get_files_by_ids_from_db E ids = inr (pre ++ file :: post) →
  Forall (λ f, owned_by E user_id f = true) pre →
  owned_by E user_id file = false →
  validate_files_access E ids user_id
  = Eff (Raise (HTTPException 403%Z ("无权访问文件: " +:+ File.filename file)))
        [EvGetFiles ids].
Proof.
  intros Hdb Hpre Hfile.
  apply (validate_files_access_first_offender E ids user_id _ file Hdb).
  by apply first_offender_app.
Qed.

(** X3. [load_file_collection] returns a collection exactly when every
    identifier parses, the lookup returns rows that all belong to the
    caller, and the loader returns that collection for those rows; the
    trace is then the lookup of the parsed ids followed by the load of the
    rows. *)
Theorem load_returns_iff_all_steps_pass (E : Env) (file_ids : list string)
    (user_id : UUID) (fc : FileCollection) :
  (result (load_file_collection E file_ids user_id) = Return fc →
   ∃ ids files,
     parses_to E file_ids ids
     ∧ get_files_by_ids_from_db E ids = inr files
     ∧ Forall (λ file, owned_by E user_id file = true) files
     ∧ load_tables_from_files E files = inr fc)
  ∧ (∀ ids files,
       parses_to E file_ids ids →
       get_files_by_ids_from_db E ids = inr files →
       Forall (λ file, owned_by E user_id file = true) files →
       load_tables_from_files E files = inr fc →
       load_file_collection E file_ids user_id
       = Eff (Return fc) [EvGetFiles ids; EvLoadTables files]).
Proof.
  split.
  - intros Hres.
    destruct (load_file_collection_outcome E user_id file_ids)
      as [m Hm|ids e Hp Hdb|ids files file Hp Hdb Hoff
         |ids files e Hp Hdb Hoff Hld|ids files fc' Hp Hdb Hoff Hld];
      simpl in Hres; try done.
    injection Hres as ->. exists ids, files.
    split; [done|]. split; [done|].
    split; [by apply first_offender_None|]. done.
  - intros ids files Hp Hdb Hown Hld.
    unfold load_file_collection, validate_files_access.
    rewrite (parses_to_uuid_file_ids _ _ _ Hp). eff_unfold. simpl.
    rewrite Hdb. simpl. rewrite validate_files_loop_first_offender.
    rewrite (proj2 (first_offender_None E user_id files) Hown). simpl.
    by rewrite Hld.
Qed.

(** X4. Whatever the request, the rows handed to the loader all belong to
    the caller: no endpoint loads a file of another user. *)
Theorem loader_only_sees_owned_rows (E : Env) (user_id : UUID) :
  let owned t :=
    Forall (Forall (λ file, owned_by E user_id file = true)) (loader_calls t) in
  (∀ file_ids, owned (trace (load_file_collection E file_ids user_id)))
  ∧ (∀ request, owned (trace (analyze_multifile E request user_id)))
  ∧ (∀ request, owned (trace (join_files E request user_id)))
  ∧ (∀ request, owned (trace (merge_files E request user_id)))
  ∧ (∀ request, owned (trace (cross_file_reference E request user_id))).
Proof.
  intros owned.
  assert (Hload : ∀ file_ids,
            owned (trace (load_file_collection E file_ids user_id))).
  { intros file_ids.
    apply (load_outcome_calls E user_id file_ids), load_file_collection_outcome. }
  split; [exact Hload|]. split; [|split; [|split]].
  - intros request. rewrite analyze_multifile_after_load. simpl.
    specialize (Hload (MultiFileAnalysisRequest.file_ids request)).
    destruct (result (load_file_collection E _ user_id)); simpl; [done|].
    unfold owned, loader_calls in *. rewrite omap_app. simpl.
    by rewrite app_nil_r.
  - intros request. rewrite join_files_after_load.
    unfold owned. rewrite after_load_loader_calls. apply Hload.
  - intros request.
    destruct (merge_files_cases E user_id request)
      as [(m & _ & ->)|(first & _ & _ & _ & ->)].
    + constructor.
    + unfold owned. rewrite after_load_loader_calls. apply Hload.
  - intros request. rewrite cross_file_reference_after_load.
    unfold owned. rewrite after_load_loader_calls. apply Hload.
Qed.

(** X5. Every endpoint calls its collaborators at most once each and in
    the order database, loader, engine, stopping at the first that fails;
    the analysis never calls the engine. *)
Theorem collaborators_called_in_order (E : Env) (user_id : UUID) :
  (∀ request,
     collaborator_calls (trace (analyze_multifile E request user_id))
       `prefix_of` [Database; Loader])
  ∧ (∀ request,
       collaborator_calls (trace (join_files E request user_id))
         `prefix_of` [Database; Loader; Engine])
  ∧ (∀ request,
       collaborator_calls (trace (merge_files E request user_id))
         `prefix_of` [Database; Loader; Engine])
  ∧ (∀ request,
       collaborator_calls (trace (cross_file_reference E request user_id))
         `prefix_of` [Database; Loader; Engine]).
Proof.
  assert (Hstep : ∀ file_ids,
    let load := load_file_collection E file_ids user_id in
    collaborator_calls (trace load)
      ++ match result load with Return _ => [Engine] | Raise _ => [] end
      `prefix_of` [Database; Loader; Engine]).
  { intros file_ids load.
    destruct (load_outcome_calls E user_id file_ids load
                (load_file_collection_outcome E user_id file_ids))
      as (Hcalls & _ & _).
    destruct (result load).
    - rewrite Hcalls. done.
    - rewrite app_nil_r. etrans; [exact Hcalls|]. by exists [Engine]. }
  split; [|split; [|split]].
  - intros request. rewrite analyze_multifile_after_load. simpl.
    destruct (load_outcome_calls E user_id _ _
                (load_file_collection_outcome E user_id
                   (MultiFileAnalysisRequest.file_ids request)))
      as (Hcalls & _ & _).
    destruct (result (load_file_collection E _ user_id)); simpl.
    + by rewrite Hcalls.
    + unfold collaborator_calls in *. rewrite omap_app. simpl.
      by rewrite app_nil_r.
  - intros request.
    rewrite join_files_after_load, after_load_collaborator_calls. apply Hstep.
  - intros request.
    destruct (merge_files_cases E user_id request)
      as [(m & _ & ->)|(first & _ & _ & _ & ->)].
    + apply prefix_nil.
    + rewrite after_load_collaborator_calls. apply Hstep.
  - intros request.
    rewrite cross_file_reference_after_load, after_load_collaborator_calls.
    apply Hstep.
Qed.

(** ** Envelopes *)




(** X9. [analyze_multifile] either returns the analysis of the loaded
    collection, with no code or message set, or raises an HTTP error whose
    status is 500 and whose detail is ["分析失败: "] followed by the text of
    the exception that stopped the load; it raises no other status, the 400
    and 403 of the guard included. *)
Theorem analyze_multifile_raises_only_500 (E : Env)
    (request : MultiFileAnalysisRequest.t) (user_id : UUID) :
  let load :=
    load_file_collection E (MultiFileAnalysisRequest.file_ids request) user_id in
  match result (analyze_multifile E request user_id) with
  | Return r =>
      ∃ fc, result load = Return fc
            ∧ r = Build_ApiResponse None (analyze_collection E fc) None
  | Raise e =>
      ∃ e0, result load = Raise e0
            ∧ e = HTTPException 500%Z ("分析失败: " +:+ str_exn E e0)
  end
  ∧ raised_http 400%Z (analyze_multifile E request user_id) = false
  ∧ raised_http 403%Z (analyze_multifile E request user_id) = false.
Proof.
  intros load. rewrite analyze_multifile_after_load. fold load. simpl.
  destruct (result load) as [fc|e]; simpl.
  - split; [by exists fc | done].
  - split; [by exists e | done].
Qed.

(** ** Caught exceptions and the log *)

(** X10. When loading or the engine raises an exception, each operation
    endpoint returns the code-500 envelope whose error is the text of that
    exception, with no output field (for merge, once its two length checks
    have passed). *)
Theorem caught_exception_is_returned_verbatim (E : Env) (user_id : UUID)
    (e : exn) :
  (∀ request,
     let load :=
       load_file_collection E
         [JoinRequest.left_file_id request; JoinRequest.right_file_id request]
         user_id in
     result load = Raise e
     ∨ (∃ fc, result load = Return fc
              ∧ execute E fc [OpJoin (join_operation request)] = inl e) →
     result (join_files E request user_id)
     = Return (Build_ApiResponse (Some 500%Z)
                 (JoinResult.mk false None None None None (Some (str_exn E e)))
                 (Some "连接操作失败")))
  ∧ (∀ request,
       let load :=
         load_file_collection E (MergeRequest.file_ids request) user_id in
       length (MergeRequest.file_ids request)
       = length (MergeRequest.tables request) →
       (2 ≤ length (MergeRequest.file_ids request))%nat →
       result load = Raise e
       ∨ (∃ fc, result load = Return fc
                ∧ execute E fc [OpMerge (merge_operation request)] = inl e) →
       result (merge_files E request user_id)
       = Return (Build_ApiResponse (Some 500%Z)
                   (MergeResult.mk false None None None None
                      (Some (str_exn E e)))
                   (Some "合并操作失败")))
  ∧ (∀ request,
       let load :=
         load_file_collection E
           [CrossReferenceRequest.source_file_id request;
            CrossReferenceRequest.target_file_id request]
           user_id in
       result load = Raise e
       ∨ (∃ fc, result load = Return fc
                ∧ execute E fc
                    [OpCrossFileReference (reference_operation request)]
                  = inl e) →
       result (cross_file_reference E request user_id)
       = Return (Build_ApiResponse (Some 500%Z)
                   (CrossReferenceResult.mk false None None None None
                      (Some (str_exn E e)))
                   (Some "引用操作失败"))).
Proof.
  split; [|split].
  - intros request load Hcase. rewrite join_files_after_load.
    fold load. unfold after_load.
    destruct Hcase as [->|(fc & -> & ->)]; done.
  - intros request load Hlen Hmin Hcase.
    destruct (merge_files_cases E user_id request)
      as [(m & _ & Hm)|(first & _ & _ & _ & ->)].
    + exfalso. unfold merge_files in Hm.
      rewrite (proj2 (Nat.eqb_eq _ _) Hlen), (proj2 (Nat.ltb_ge _ _) Hmin)
        in Hm.
      simpl in Hm. apply (f_equal trace) in Hm. revert Hm.
      fold load. unfold try_except. eff_unfold.
      destruct Hcase as [Hr|(fc & Hr & Hx)]; rewrite Hr; simpl.
      * intros Hm. by apply app_eq_nil in Hm as [_ ?].
      * rewrite Hx. simpl. intros Hm.
        apply app_eq_nil in Hm as [Hm _]. by apply app_eq_nil in Hm as [_ ?].
    + fold load. unfold after_load.
      destruct Hcase as [->|(fc & -> & ->)]; done.
  - intros request load Hcase. rewrite cross_file_reference_after_load.
    fold load. unfold after_load.
    destruct Hcase as [->|(fc & -> & ->)]; done.
Qed.

(** X11. An error line is logged exactly when an exception was caught: for
    the operation endpoints, one line, the endpoint's prefix followed by the
    error string returned to the caller, when the envelope has code 500, and
    none otherwise, so engine-reported errors and merge validation failures
    are not logged; for the analysis, one line when it raises and none when
    it returns. *)
Theorem log_line_iff_exception_caught (E : Env) (user_id : UUID) :
  (∀ request, ∃ r,
     result (join_files E request user_id) = Return r
     ∧ logged (trace (join_files E request user_id))
       = match code r, JoinResult.error (data r) with
         | Some 500%Z, Some m => ["文件连接失败: " +:+ m]
         | _, _ => []
         end)
  ∧ (∀ request, ∃ r,
       result (merge_files E request user_id) = Return r
       ∧ logged (trace (merge_files E request user_id))
         = match code r, MergeResult.error (data r) with
           | Some 500%Z, Some m => ["文件合并失败: " +:+ m]
           | _, _ => []
           end)
  ∧ (∀ request, ∃ r,
       result (cross_file_reference E request user_id) = Return r
       ∧ logged (trace (cross_file_reference E request user_id))
         = match code r, CrossReferenceResult.error (data r) with
           | Some 500%Z, Some m => ["跨文件引用失败: " +:+ m]
           | _, _ => []
           end)
  ∧ (∀ request,
       logged (trace (analyze_multifile E request user_id))
       = match result (analyze_multifile E request user_id) with
         | Return _ => []
         | Raise _ =>
             match result (load_file_collection E
                             (MultiFileAnalysisRequest.file_ids request)
                             user_id) with
             | Raise e0 => ["多文件分析失败: " +:+ str_exn E e0]
             | Return _ => []
             end
         end).
Proof.
  assert (Hquiet : ∀ file_ids,
            logged (trace (load_file_collection E file_ids user_id)) = []).
  { intros file_ids.
    apply (load_outcome_calls E user_id file_ids), load_file_collection_outcome. }
  split; [|split; [|split]].
  - intros request. rewrite join_files_after_load.
    rewrite after_load_logged by apply Hquiet. unfold after_load.
    destruct (result (load_file_collection E _ user_id)) as [fc|e].
    + destruct (execute E fc _) as [e|res]; simpl; [by eexists|].
      eexists. split; [done|]. unfold join_normalised.
      by destruct (has_errors res).
    + by eexists.
  - intros request.
    destruct (merge_files_cases E user_id request)
      as [(m & _ & ->)|(first & _ & _ & _ & ->)]; [by eexists|].
    rewrite after_load_logged by apply Hquiet. unfold after_load.
    destruct (result (load_file_collection E _ user_id)) as [fc|e].
    + destruct (execute E fc _) as [e|res]; simpl; [by eexists|].
      eexists. split; [done|]. unfold merge_normalised.
      by destruct (has_errors res).
    + by eexists.
  - intros request. rewrite cross_file_reference_after_load.
    rewrite after_load_logged by apply Hquiet. unfold after_load.
    destruct (result (load_file_collection E _ user_id)) as [fc|e].
    + destruct (execute E fc _) as [e|res]; simpl; [by eexists|].
      eexists. split; [done|]. unfold reference_normalised.
      by destruct (has_errors res).
    + by eexists.
  - intros request. rewrite analyze_multifile_after_load. simpl.
    specialize (Hquiet (MultiFileAnalysisRequest.file_ids request)).
    destruct (result (load_file_collection E _ user_id)) as [fc|e]; simpl.
    + done.
    + unfold logged in *. rewrite omap_app, Hquiet. done.
Qed.

(** ** Results of the cross-file reference, empty requests, descriptors *)

(** X12. On an error-free execution [cross_file_reference] reports
    success with the request's target table as sheet name; the formula is
    the first formula of the engine result when the reference type is
    ["formula"] (none when the engine produced none), and is absent for
    every other reference type even when the engine produced formulas. *)
Theorem reference_formula_only_for_formula_type (E : Env) (user_id : UUID)
    (request : CrossReferenceRequest.t) (res : ExecutionResult.t) :
  result (run_engine E
            [CrossReferenceRequest.source_file_id request;
             CrossReferenceRequest.target_file_id request]
            user_id [OpCrossFileReference (reference_operation request)])
  = Return res →
  ExecutionResult.errors res = [] →
  ∃ r, result (cross_file_reference E request user_id) = Return r
       ∧ CrossReferenceResult.success (data r) = true
       ∧ CrossReferenceResult.target_sheet_name (data r)
         = Some (CrossReferenceRequest.target_table request)
       ∧ CrossReferenceResult.formula (data r)
         = if decide (CrossReferenceRequest.reference_type request = "formula")
           then head (ExecutionResult.excel_formulas res)
           else None.
Proof.
  intros Hrun Herr.
  rewrite (cross_file_reference_engine_returns _ _ _ _ Hrun),
    (has_errors_false _ Herr).
  eexists. split; [done|]. simpl. split; [done|]. split; [done|].
  destruct (decide _) as [->|Hne]; [done|].
  destruct (String.eqb _ _) eqn:Heq; [|done].
  by apply String.eqb_eq in Heq.
Qed.

(** X13. An analysis request with an empty id list is not rejected: the
    database is asked for no ids and the loader for no rows, and when these
    answer with no rows and a collection without files the endpoint returns
    empty schemas, no relationship and the fallback suggestion alone. *)
Theorem analysis_of_empty_request (E : Env) (user_id : UUID)
    (analysis_type : string) (fc : FileCollection) :
  get_files_by_ids_from_db E [] = inr [] →
  load_tables_from_files E [] = inr fc →
  get_schemas fc = [] →
  analyze_multifile E (MultiFileAnalysisRequest.mk [] analysis_type) user_id
  = Eff (Return (Build_ApiResponse None
                   (MultiFileAnalysisResult.mk [] [] [fallback_suggestion])
                   None))
        [EvGetFiles []; EvLoadTables []].
Proof.
  intros Hdb Hld Hsch.
  rewrite analyze_multifile_after_load. simpl.
  unfold load_file_collection, validate_files_access. simpl. eff_unfold. simpl.
  rewrite Hdb. simpl. rewrite Hld. simpl.
  unfold analyze_collection, build_file_schemas. rewrite Hsch. done.
Qed.

(** X14. The operation handed to the engine carries the request's fields
    unchanged and always writes to a new sheet named by the request: for a
    join whose files load, the file ids, tables, join type and the
    operators of the conditions, none of them checked against the
    documented values; for a merge that passes its length checks and whose
    files load, the file ids, tables and merge type. *)
Theorem operations_carry_request_fields (E : Env) (user_id : UUID) :
  (∀ request,
     returned (load_file_collection E
                 [JoinRequest.left_file_id request;
                  JoinRequest.right_file_id request] user_id) = true →
     ∃ op,
       engine_calls (trace (join_files E request user_id)) = [[OpJoin op]]
       ∧ JoinOperation.left_file_id op = JoinRequest.left_file_id request
       ∧ JoinOperation.left_table op = JoinRequest.left_table request
       ∧ JoinOperation.right_file_id op = JoinRequest.right_file_id request
       ∧ JoinOperation.right_table op = JoinRequest.right_table request
       ∧ JoinOperation.join_type op = JoinRequest.join_type request
       ∧ map JoinCondition.operator (JoinOperation.conditions op)
         = map JoinConditionRequest.operator (JoinRequest.conditions request)
       ∧ JoinOperation.output op
         = new_sheet (JoinRequest.output_sheet_name request))
  ∧ (∀ request,
       length (MergeRequest.file_ids request)
       = length (MergeRequest.tables request) →
       (2 ≤ length (MergeRequest.file_ids request))%nat →
       returned (load_file_collection E (MergeRequest.file_ids request)
                   user_id) = true →
       ∃ op,
         engine_calls (trace (merge_files E request user_id)) = [[OpMerge op]]
         ∧ MergeOperation.file_ids op = MergeRequest.file_ids request
         ∧ MergeOperation.tables op = MergeRequest.tables request
         ∧ MergeOperation.merge_type op = MergeRequest.merge_type request
         ∧ MergeOperation.output op
           = new_sheet (MergeRequest.output_sheet_name request)).
Proof.
  split.
  - intros request Hl. exists (join_operation request).
    split; [by apply join_files_engine_calls|]. simpl.
    repeat (split; [done|]). split; [|done].
    rewrite map_map. done.
  - intros request Hlen Hmin Hl. exists (merge_operation request).
    split; [|done].
    destruct (MergeRequest.file_ids request) as [|first rest] eqn:Hids;
      [simpl in Hmin; lia|].
    rewrite <- Hids in *.
    assert (Hfirst : head (MergeRequest.file_ids request) = Some first)
      by (by rewrite Hids).
    rewrite (merge_files_after_load E user_id request first Hlen Hfirst Hmin).
    rewrite after_load_engine_calls
      by apply load_file_collection_engine_calls.
    unfold returned in Hl.
    by destruct (result (load_file_collection E _ user_id)).
Qed.

(** ** Relationship records, by membership *)

Section RecordMembership.

Context (E : Env) (fc : FileCollection).

Lemma set_iter_elem_of cols1 cols2 col :
  set_iter_sound E →
  col ∈ set_iter E cols1 cols2 ↔ col ∈ cols1 ∧ col ∈ cols2.
Proof.
  intros Hs. rewrite (Hs cols1 cols2), elem_of_elements.
  unfold shared_columns.
  by rewrite elem_of_intersection, !elem_of_list_to_set.
Qed.

Lemma set_iter_NoDup cols1 cols2 :
  set_iter_sound E → NoDup (set_iter E cols1 cols2).
Proof. intros Hs. rewrite (Hs cols1 cols2). apply NoDup_elements. Qed.

Lemma pair_relationships_elem_of p r :
  r ∈ pair_relationships E fc p
  ↔ ∃ sheet1 sheet2 col,
      sheet1 ∈ get_sheet_names (get_file fc p.1)
      ∧ sheet2 ∈ get_sheet_names (get_file fc p.2)
      ∧ col ∈ set_iter E (sheet_columns fc p.1 sheet1)
                         (sheet_columns fc p.2 sheet2)
      ∧ r = potential_join p.1 sheet1 p.2 sheet2 col.
Proof.
  unfold pair_relationships. rewrite list_elem_of_bind. split.
  - intros (sheet1 & (sheet2 & Hr & H2)%list_elem_of_bind & H1).
    apply list_elem_of_fmap in Hr as (col & -> & Hcol).
    by exists sheet1, sheet2, col.
  - intros (sheet1 & sheet2 & col & H1 & H2 & Hcol & ->).
    exists sheet1. split; [|done].
    apply list_elem_of_bind. exists sheet2. split; [|done].
    apply list_elem_of_fmap. by exists col.
Qed.

Lemma file_pairs_members (l : list string) p :
  p ∈ file_pairs l → p.1 ∈ l ∧ p.2 ∈ l.
Proof.
  intros (i & j & _ & Hi & Hj)%file_pairs_elem_of.
  split; apply list_elem_of_lookup; eauto.
Qed.

End RecordMembership.

(** X15. A record is among the relationships exactly when it is the
    [potential_join] record of two files at positions [i < j] of the schema
    mapping, a sheet of each, and a column name that occurs in the columns
    of both sheets: nothing is invented and nothing shared is missed. *)
Theorem relationship_iff_column_in_both_sheets (E : Env) (fc : FileCollection)
    (r : RelationshipInfo.t) :
  set_iter_sound E →
  r ∈ MultiFileAnalysisResult.relationships (analyze_collection E fc)
  ↔ ∃ (i j : nat) file_id1 file_id2 sheet1 sheet2 col,
      (i < j)%nat
      ∧ map fst (get_schemas fc) !! i = Some file_id1
      ∧ map fst (get_schemas fc) !! j = Some file_id2
      ∧ sheet1 ∈ get_sheet_names (get_file fc file_id1)
      ∧ sheet2 ∈ get_sheet_names (get_file fc file_id2)
      ∧ col ∈ get_columns (get_sheet (get_file fc file_id1) sheet1)
      ∧ col ∈ get_columns (get_sheet (get_file fc file_id2) sheet2)
      ∧ r = RelationshipInfo.mk file_id1 sheet1 col file_id2 sheet2 col
              "potential_join".
Proof.
  intros Hs. rewrite analyze_relationships, list_elem_of_bind. split.
  - intros ([f1 f2] & Hr & Hp).
    apply pair_relationships_elem_of in Hr
      as (sheet1 & sheet2 & col & H1 & H2 & Hcol & ->).
    apply file_pairs_elem_of in Hp as (i & j & Hij & Hi & Hj).
    apply (set_iter_elem_of E _ _ _ Hs) in Hcol as [Hc1 Hc2].
    exists i, j, f1, f2, sheet1, sheet2, col. done.
  - intros (i & j & f1 & f2 & sheet1 & sheet2 & col
            & Hij & Hi & Hj & H1 & H2 & Hc1 & Hc2 & ->).
    exists (f1, f2). split.
    + apply pair_relationships_elem_of.
      exists sheet1, sheet2, col. split; [done|]. split; [done|].
      split; [|done]. by apply (set_iter_elem_of E _ _ _ Hs).
    + apply file_pairs_elem_of. by exists i, j.
Qed.

(** X16. When the sheet names of every loaded file are distinct (and the
    keys of the schema mapping are), no record occurs twice in the
    relationships, also when a sheet lists a column name several times. *)
Theorem relationships_are_distinct (E : Env) (fc : FileCollection) :
  set_iter_sound E →
  NoDup (map fst (get_schemas fc)) →
  (∀ file_id, file_id ∈ map fst (get_schemas fc) →
              NoDup (get_sheet_names (get_file fc file_id))) →
  NoDup (MultiFileAnalysisResult.relationships (analyze_collection E fc)).
Proof.
  intros Hs Hids Hsheets. rewrite analyze_relationships.
  apply NoDup_bind; [| |by apply file_pairs_NoDup].
  - intros [a1 b1] [a2 b2] r _ _
      (s1 & s2 & c & _ & _ & _ & ->)%pair_relationships_elem_of
      (s1' & s2' & c' & _ & _ & _ & Heq)%pair_relationships_elem_of.
    simpl in Heq. by injection Heq as -> _ _ -> _.
  - intros [f1 f2] [Hf1 Hf2]%file_pairs_members. simpl in *.
    unfold pair_relationships. simpl.
    apply NoDup_bind; [| |by apply Hsheets].
    + intros s1 s1' r _ _ (s2 & Hr & _)%list_elem_of_bind
        (s2' & Hr' & _)%list_elem_of_bind.
      apply list_elem_of_fmap in Hr as (c & -> & _).
      apply list_elem_of_fmap in Hr' as (c' & Heq & _).
      by injection Heq as ->.
    + intros s1 _.
      apply NoDup_bind; [| |by apply Hsheets].
      * intros s2 s2' r _ _ (c & -> & _)%list_elem_of_fmap
          (c' & Heq & _)%list_elem_of_fmap.
        by injection Heq as _ ->.
      * intros s2 _. apply NoDup_fmap_2; [|by apply set_iter_NoDup].
        intros c c' Heq. by injection Heq.
Qed.

(** * Properties of the bucket scripts *)

Section BucketScripts.

Context {S : Type} (W : Minio.World S).

Let B : string := Minio.BUCKET_NAME.
Let p : string := Minio.dumps W Minio.fix_policy.

(** What the [except S3Error] clause makes of an exception [e] raised in
    state [s] after the events [pre]. *)
Let caught (e : Minio.error) (s : S) (pre : list Minio.event)
    : Minio.run S unit :=
  if Minio.is_S3Error e
  then Minio.Run (Minio.Done tt) s (pre ++ [Minio.Print (Minio.fix_failure_line e)])
  else Minio.Run (Minio.Failed e) s pre.

Let set_policy (s : S) (pre : list Minio.event) : Minio.run S unit :=
  match Minio.set_bucket_policy W B p s with
  | (inr _, s') =>
      Minio.Run (Minio.Done tt) s'
        (pre ++ [Minio.SetBucketPolicy B p; Minio.Print Minio.fix_success_line])
  | (inl e, s') => caught e s' (pre ++ [Minio.SetBucketPolicy B p])
  end.

Lemma fix_bucket_policy_run (s : S) :
  Minio.fix_bucket_policy W s
  = match Minio.bucket_exists W B s with
    | (inl e, s1) => caught e s1 [Minio.BucketExists B]
    | (inr true, s1) => set_policy s1 [Minio.BucketExists B]
    | (inr false, s1) =>
        match Minio.make_bucket W B s1 with
        | (inl e, s2) =>
            caught e s2
              [Minio.BucketExists B; Minio.Print Minio.creating_line;
               Minio.MakeBucket B]
        | (inr _, s2) =>
            set_policy s2
              [Minio.BucketExists B; Minio.Print Minio.creating_line;
               Minio.MakeBucket B]
        end
    end.
Proof.
  unfold Minio.fix_bucket_policy, Minio.try_except, Minio.bind, Minio.call,
    Minio.print, Minio.ret, set_policy, caught.
  fold B. fold p.
  destruct (Minio.bucket_exists W B s) as [[e|[|]] s1]; simpl.
  - by destruct (Minio.is_S3Error e).
  - destruct (Minio.set_bucket_policy W B p s1) as [[e|[]] s2]; simpl; [|done].
    by destruct (Minio.is_S3Error e).
  - destruct (Minio.make_bucket W B s1) as [[e|[]] s2]; simpl.
    + by destruct (Minio.is_S3Error e).
    + destruct (Minio.set_bucket_policy W B p s2) as [[e|[]] s3]; simpl;
        [|done].
      by destruct (Minio.is_S3Error e).
Qed.

Lemma success_ne_failure e : Minio.fix_success_line ≠ Minio.fix_failure_line e.
Proof. unfold Minio.fix_success_line, Minio.fix_failure_line. simpl. discriminate. Qed.

Lemma success_ne_creating : Minio.fix_success_line ≠ Minio.creating_line.
Proof. discriminate. Qed.

Lemma failure_ne_creating e : Minio.fix_failure_line e ≠ Minio.creating_line.
Proof. unfold Minio.fix_failure_line. simpl. discriminate. Qed.

(** X17. [fix_bucket_policy] calls the client in a fixed order: first
    [bucket_exists]; then [make_bucket] exactly when the answer was
    [False]; then [set_bucket_policy], once, for [BUCKET_NAME] and the
    dumped policy; it stops at the first call that raises and makes no
    other call. *)
Theorem fix_bucket_policy_client_calls (s : S) :
  Minio.client_calls (Minio.events (Minio.fix_bucket_policy W s))
  = match Minio.bucket_exists W B s with
    | (inl _, _) => [Minio.BucketExists B]
    | (inr true, _) => [Minio.BucketExists B; Minio.SetBucketPolicy B p]
    | (inr false, s1) =>
        match Minio.make_bucket W B s1 with
        | (inl _, _) => [Minio.BucketExists B; Minio.MakeBucket B]
        | (inr _, _) =>
            [Minio.BucketExists B; Minio.MakeBucket B;
             Minio.SetBucketPolicy B p]
        end
    end.
Proof.
  rewrite fix_bucket_policy_run. unfold set_policy, caught.
  destruct (Minio.bucket_exists W B s) as [[e|[|]] s1].
  - by destruct (Minio.is_S3Error e).
  - destruct (Minio.set_bucket_policy W B p s1) as [[e|[]] s2]; [|done].
    by destruct (Minio.is_S3Error e).
  - destruct (Minio.make_bucket W B s1) as [[e|[]] s2].
    + by destruct (Minio.is_S3Error e).
    + destruct (Minio.set_bucket_policy W B p s2) as [[e|[]] s3]; [|done].
      by destruct (Minio.is_S3Error e).
Qed.

Ltac status_case :=
  simpl;
  repeat match goal with
  | |- _ ∧ _ => split
  | |- ∀ _, _ => intro
  | H : _ ∈ [] |- _ => apply elem_of_nil in H; destruct H
  | H : _ ∈ _ :: _ |- _ => apply elem_of_cons in H as [H|H]
  | H : ?x ∉ ?x :: _ |- _ => exfalso; apply H; left
  | H : Minio.Failed _ = Minio.Failed _ |- _ => injection H as <-
  | H : Minio.fix_success_line = Minio.fix_failure_line _ |- _ =>
      apply success_ne_failure in H; destruct H
  | H : Minio.fix_failure_line _ = Minio.fix_success_line |- _ =>
      symmetry in H; apply success_ne_failure in H; destruct H
  | H : Minio.fix_success_line = Minio.creating_line |- _ =>
      apply success_ne_creating in H; destruct H
  | H : Minio.fix_failure_line _ = Minio.creating_line |- _ =>
      apply failure_ne_creating in H; destruct H
  | |- _ ∉ _ => intros ?
  | |- _ ≠ _ => intros ?
  end;
  try done.

(** X18. [fix_bucket_policy] never lets an [S3Error] escape: it is caught
    and reported by a last printed line, other exceptions pass through
    unreported.  The success line is printed only as the very last event,
    after [set_bucket_policy] was called, and never together with a failure
    line; when the script returns without the success line, its last event
    is the failure line of an [S3Error]. *)
Theorem fix_bucket_policy_status (s : S) :
  let r := Minio.fix_bucket_policy W s in
  (∀ m, Minio.outcome_of r ≠ Minio.Failed (Minio.S3Error m))
  ∧ (Minio.fix_success_line ∈ Minio.printed (Minio.events r) →
     Minio.outcome_of r = Minio.Done tt
     ∧ last (Minio.events r) = Some (Minio.Print Minio.fix_success_line)
     ∧ Minio.SetBucketPolicy Minio.BUCKET_NAME
         (Minio.dumps W Minio.fix_policy) ∈ Minio.events r
     ∧ (∀ e, Minio.fix_failure_line e ∉ Minio.printed (Minio.events r)))
  ∧ (Minio.outcome_of r = Minio.Done tt →
     Minio.fix_success_line ∉ Minio.printed (Minio.events r) →
     ∃ m, last (Minio.events r)
          = Some (Minio.Print (Minio.fix_failure_line (Minio.S3Error m))))
  ∧ (∀ e, Minio.outcome_of r = Minio.Failed e →
          Minio.is_S3Error e = false
          ∧ (Minio.fix_success_line ∉ Minio.printed (Minio.events r))
          ∧ (∀ e', Minio.fix_failure_line e' ∉ Minio.printed (Minio.events r))).
Proof.
  intros r. subst r. rewrite fix_bucket_policy_run. unfold set_policy, caught.
  fold B. fold p.
  destruct (Minio.bucket_exists W B s) as [[e|[|]] s1].
  - destruct e as [m|m]; status_case; try (by exists m).
  - destruct (Minio.set_bucket_policy W B p s1) as [[e|[]] s2].
    + destruct e as [m|m]; status_case; try (by exists m).
    + status_case; set_solver.
  - destruct (Minio.make_bucket W B s1) as [[e|[]] s2].
    + destruct e as [m|m]; status_case; try (by exists m).
    + destruct (Minio.set_bucket_policy W B p s2) as [[e|[]] s3].
      * destruct e as [m|m]; status_case; try (by exists m).
      * status_case; set_solver.
Qed.


End BucketScripts.

(** * The further properties at concrete inputs *)

Lemma guard_returns_rows_iff_all_owned_witness :
  let E := Demo.env Demo.silent_engine in
  let files := [File.mk 0xa%N Demo.alice "orders.xlsx";
                File.mk 0xb%N Demo.alice "customers.xlsx"] in
  get_files_by_ids_from_db E [0xa%N; 0xb%N] = inr files
  ∧ Forall (λ file, owned_by E Demo.alice file = true) files
  ∧ validate_files_access E [0xa%N; 0xb%N] Demo.alice
    = Eff (Return files) [EvGetFiles [0xa%N; 0xb%N]].
Proof.
  intros E files.
  assert (Hdb : get_files_by_ids_from_db E [0xa%N; 0xb%N] = inr files)
    by (vm_compute; reflexivity).
  assert (Hown : Forall (λ file, owned_by E Demo.alice file = true) files)
    by (repeat constructor).
  split; [exact Hdb|]. split; [exact Hown|].
  exact (proj2 (guard_returns_rows_iff_all_owned E [0xa%N; 0xb%N] Demo.alice
                  files Hdb) Hown).
Defined.

Lemma guard_stops_at_first_foreign_row_witness :
  let E := Demo.env Demo.silent_engine in
  let ids := [0xa%N; 0xb%N; 0xc%N] in
  get_files_by_ids_from_db E ids
  = inr ([] ++ File.mk 0xa%N Demo.alice "orders.xlsx"
            :: [File.mk 0xb%N Demo.alice "customers.xlsx";
                File.mk 0xc%N Demo.bob "payroll.xlsx"])
  ∧ owned_by E Demo.bob (File.mk 0xa%N Demo.alice "orders.xlsx") = false
  ∧ validate_files_access E ids Demo.bob
    = Eff (Raise (HTTPException 403%Z "无权访问文件: orders.xlsx"))
          [EvGetFiles ids].
Proof.
  intros E ids.
  assert (Hdb : get_files_by_ids_from_db E ids
                = inr ([] ++ File.mk 0xa%N Demo.alice "orders.xlsx"
                          :: [File.mk 0xb%N Demo.alice "customers.xlsx";
                              File.mk 0xc%N Demo.bob "payroll.xlsx"]))
    by (vm_compute; reflexivity).
  assert (Hfile : owned_by E Demo.bob (File.mk 0xa%N Demo.alice "orders.xlsx")
                  = false) by (vm_compute; reflexivity).
  split; [exact Hdb|]. split; [exact Hfile|].
  exact (guard_stops_at_first_foreign_row E ids Demo.bob [] _ _ Hdb
           (Forall_nil_2 _) Hfile).
Defined.

Lemma load_returns_iff_all_steps_pass_witness :
  let E := Demo.env Demo.silent_engine in
  let files := [File.mk 0xa%N Demo.alice "orders.xlsx";
                File.mk 0xb%N Demo.alice "customers.xlsx"] in
  parses_to E [Demo.orders_id; Demo.customers_id] [0xa%N; 0xb%N]
  ∧ Forall (λ file, owned_by E Demo.alice file = true) files
  ∧ load_file_collection E [Demo.orders_id; Demo.customers_id] Demo.alice
    = Eff (Return Demo.shared_twice)
          [EvGetFiles [0xa%N; 0xb%N]; EvLoadTables files].
Proof.
  intros E files.
  assert (Hp : parses_to E [Demo.orders_id; Demo.customers_id] [0xa%N; 0xb%N]).
  { repeat constructor; vm_compute; reflexivity. }
  assert (Hown : Forall (λ file, owned_by E Demo.alice file = true) files)
    by (repeat constructor).
  split; [exact Hp|]. split; [exact Hown|].
  refine (proj2 (load_returns_iff_all_steps_pass E _ Demo.alice
                   Demo.shared_twice) [0xa%N; 0xb%N] files Hp _ Hown _).
  - vm_compute. reflexivity.
  - reflexivity.
Defined.

Lemma caught_exception_is_returned_verbatim_witness :
  let E := Demo.env Sample.raising_engine in
  execute E Demo.shared_twice [OpJoin (join_operation Demo.join_own)]
  = inl (OtherException "engine crashed")
  ∧ result (join_files E Demo.join_own Demo.alice)
    = Return (Build_ApiResponse (Some 500%Z)
                (JoinResult.mk false None None None None (Some "engine crashed"))
                (Some "连接操作失败"))
  ∧ result (merge_files E Demo.merge_malformed Demo.alice)
    = Return (Build_ApiResponse (Some 500%Z)
                (MergeResult.mk false None None None None
                   (Some "400: 无效的 file_id 格式: badly formed hexadecimal UUID string"))
                (Some "合并操作失败")).
Proof.
  intros E. split; [reflexivity|]. split.
  - refine (proj1 (caught_exception_is_returned_verbatim E Demo.alice
                     (OtherException "engine crashed")) Demo.join_own _).
    right. exists Demo.shared_twice. split; reflexivity.
  - refine (proj1 (proj2 (caught_exception_is_returned_verbatim E Demo.alice
              (HTTPException 400%Z
                 "无效的 file_id 格式: badly formed hexadecimal UUID string")))
              Demo.merge_malformed eq_refl _ _).
    + simpl. lia.
    + left. vm_compute. reflexivity.
Defined.

Lemma reference_formula_only_for_formula_type_witness :
  let E := Demo.env Sample.formula_engine in
  let res :=
    ExecutionResult.mk [] ∅ ["=VLOOKUP(A2,orders!A:C,3,FALSE)"; "=A2"] in
  ExecutionResult.errors res = []
  ∧ (∃ r, result (cross_file_reference E
                    (Sample.reference_formula (Some "linked")) Demo.alice)
          = Return r
          ∧ CrossReferenceResult.target_sheet_name (data r) = Some "Sheet1"
          ∧ CrossReferenceResult.formula (data r)
            = Some "=VLOOKUP(A2,orders!A:C,3,FALSE)")
  ∧ (∃ r, result (cross_file_reference E (Demo.reference_with None) Demo.alice)
          = Return r
          ∧ CrossReferenceResult.formula (data r) = None).
Proof.
  intros E res. split; [reflexivity|]. split.
  - destruct (reference_formula_only_for_formula_type E Demo.alice
                (Sample.reference_formula (Some "linked")) res)
      as (r & Hr & _ & Hsheet & Hformula).
    + vm_compute. reflexivity.
    + reflexivity.
    + exists r. split; [exact Hr|]. split; [exact Hsheet | exact Hformula].
  - destruct (reference_formula_only_for_formula_type E Demo.alice
                (Demo.reference_with None) res)
      as (r & Hr & _ & _ & Hformula).
    + vm_compute. reflexivity.
    + reflexivity.
    + exists r. split; [exact Hr | exact Hformula].
Defined.

Lemma analysis_of_empty_request_witness :
  let E := Demo.env Demo.silent_engine in
  get_files_by_ids_from_db E [] = inr []
  ∧ load_tables_from_files E [] = inr (Demo.collection_of [])
  ∧ analyze_multifile E (Sample.analysis_of []) Demo.alice
    = Eff (Return (Build_ApiResponse None
                     (MultiFileAnalysisResult.mk [] [] [fallback_suggestion])
                     None))
          [EvGetFiles []; EvLoadTables []].
Proof.
  intros E. split; [reflexivity|]. split; [reflexivity|].
  exact (analysis_of_empty_request E Demo.alice "schema" (Demo.collection_of [])
           eq_refl eq_refl eq_refl).
Defined.

Lemma operations_carry_request_fields_witness :
  let E := Demo.env Demo.silent_engine in
  returned (load_file_collection E (MergeRequest.file_ids Demo.merge_own)
              Demo.alice) = true
  ∧ ∃ op,
      engine_calls (trace (merge_files E Demo.merge_own Demo.alice))
      = [[OpMerge op]]
      ∧ MergeOperation.file_ids op = [Demo.orders_id; Demo.customers_id]
      ∧ MergeOperation.tables op = ["Sheet1"; "Sheet1"]
      ∧ MergeOperation.merge_type op = "vertical"
      ∧ MergeOperation.output op = new_sheet "out".
Proof.
  intros E.
  assert (Hl : returned (load_file_collection E
                 (MergeRequest.file_ids Demo.merge_own) Demo.alice) = true)
    by (vm_compute; reflexivity).
  split; [exact Hl|].
  refine (proj2 (operations_carry_request_fields E Demo.alice)
            Demo.merge_own eq_refl _ Hl).
  simpl. lia.
Defined.

Lemma relationship_iff_column_in_both_sheets_witness :
  let E := Demo.env Demo.silent_engine in
  let fc := Demo.shared_twice in
  set_iter_sound E
  ∧ "id" ∈ get_columns (get_sheet (get_file fc Demo.orders_id) "Sheet1")
  ∧ "id" ∈ get_columns (get_sheet (get_file fc Demo.customers_id) "Archive")
  ∧ RelationshipInfo.mk Demo.orders_id "Sheet1" "id"
      Demo.customers_id "Archive" "id" "potential_join"
    ∈ MultiFileAnalysisResult.relationships (analyze_collection E fc).
Proof.
  intros E fc.
  assert (Hs : set_iter_sound E) by (intros cols1 cols2; reflexivity).
  assert (H1 : "id" ∈ get_columns
                 (get_sheet (get_file fc Demo.orders_id) "Sheet1")).
  { apply list_elem_of_lookup. exists 0%nat. reflexivity. }
  assert (H2 : "id" ∈ get_columns
                 (get_sheet (get_file fc Demo.customers_id) "Archive")).
  { apply list_elem_of_lookup. exists 1%nat. reflexivity. }
  split; [exact Hs|]. split; [exact H1|]. split; [exact H2|].
  apply (relationship_iff_column_in_both_sheets E fc _ Hs).
  exists 0%nat, 1%nat, Demo.orders_id, Demo.customers_id, "Sheet1", "Archive",
    "id".
  split; [lia|]. split; [reflexivity|]. split; [reflexivity|].
  split; [apply list_elem_of_lookup; exists 0%nat; reflexivity|].
  split; [apply list_elem_of_lookup; exists 1%nat; reflexivity|].
  split; [exact H1|]. split; [exact H2 | reflexivity].
Defined.

Lemma relationships_are_distinct_witness :
  let E := Demo.env Demo.silent_engine in
  let fc := Demo.shared_twice in
  set_iter_sound E
  ∧ NoDup (map fst (get_schemas fc))
  ∧ NoDup (get_sheet_names (get_file fc Demo.customers_id))
  ∧ NoDup (MultiFileAnalysisResult.relationships (analyze_collection E fc)).
Proof.
  intros E fc.
  assert (Hs : set_iter_sound E) by (intros cols1 cols2; reflexivity).
  assert (Hids : NoDup (map fst (get_schemas fc))).
  { apply NoDup_cons. split; [|apply NoDup_singleton].
    intros Hin%list_elem_of_singleton. discriminate Hin. }
  assert (Hcust : NoDup (get_sheet_names (get_file fc Demo.customers_id))).
  { apply NoDup_cons. split; [|apply NoDup_singleton].
    intros Hin%list_elem_of_singleton. discriminate Hin. }
  split; [exact Hs|]. split; [exact Hids|]. split; [exact Hcust|].
  apply (relationships_are_distinct E fc Hs Hids).
  intros file_id Hin.
  apply elem_of_cons in Hin as [->|Hin]; [apply NoDup_singleton|].
  apply list_elem_of_singleton in Hin as ->. exact Hcust.
Defined.

Lemma fix_bucket_policy_status_witness :
  let r := Minio.fix_bucket_policy Minio.store_world Minio.empty_store in
  Minio.fix_success_line ∈ Minio.printed (Minio.events r)
  ∧ Minio.outcome_of r = Minio.Done tt
  ∧ last (Minio.events r) = Some (Minio.Print Minio.fix_success_line)
  ∧ Minio.client_calls (Minio.events r)
    = [Minio.BucketExists "llm-excel"; Minio.MakeBucket "llm-excel";
       Minio.SetBucketPolicy "llm-excel"
         (Minio.dumps_json Minio.fix_policy)].
Proof.
  intros r.
  assert (Hin : Minio.fix_success_line ∈ Minio.printed (Minio.events r)).
  { apply list_elem_of_lookup. exists 1%nat. vm_compute. reflexivity. }
  destruct (fix_bucket_policy_status Minio.store_world Minio.empty_store)
    as (_ & Hsuccess & _ & _).
  destruct (Hsuccess Hin) as (Hdone & Hlast & _ & _).
  split; [exact Hin|]. split; [exact Hdone|]. split; [exact Hlast|].
  vm_compute. reflexivity.
Defined.

(** ** More sample runs *)

(** The policy [fix_minio.py] sends, as [json.dumps] prints it. *)
Example fix_policy_text :
  Minio.dumps_json Minio.fix_policy
  = String.concat ""
      ["{"; Minio.quote; "Version"; Minio.quote; ": ";
       Minio.quote; "2012-10-17"; Minio.quote; ", ";
       Minio.quote; "Statement"; Minio.quote; ": [{";
       Minio.quote; "Effect"; Minio.quote; ": ";
       Minio.quote; "Allow"; Minio.quote; ", ";
       Minio.quote; "Principal"; Minio.quote; ": {";
       Minio.quote; "AWS"; Minio.quote; ": [";
       Minio.quote; "*"; Minio.quote; "]}, ";
       Minio.quote; "Action"; Minio.quote; ": [";
       Minio.quote; "s3:GetBucketLocation"; Minio.quote; ", ";
       Minio.quote; "s3:ListBucket"; Minio.quote; "], ";
       Minio.quote; "Resource"; Minio.quote; ": [";
       Minio.quote; "arn:aws:s3:::llm-excel"; Minio.quote; "]}, {";
       Minio.quote; "Effect"; Minio.quote; ": ";
       Minio.quote; "Allow"; Minio.quote; ", ";
       Minio.quote; "Principal"; Minio.quote; ": {";
       Minio.quote; "AWS"; Minio.quote; ": [";
       Minio.quote; "*"; Minio.quote; "]}, ";
       Minio.quote; "Action"; Minio.quote; ": [";
       Minio.quote; "s3:GetObject"; Minio.quote; "], ";
       Minio.quote; "Resource"; Minio.quote; ": [";
       Minio.quote; "arn:aws:s3:::llm-excel/*"; Minio.quote; "]}]}"].
Proof. vm_compute. reflexivity. Qed.

(** [make_public.py] on a server without its bucket: the failure line. *)
Example make_public_without_bucket :
  let r := Minio.make_public Minio.store_world Minio.empty_store in
  Minio.outcome_of r = Minio.Done tt
  ∧ Minio.printed (Minio.events r) = ["❌ 设置失败，错误信息: NoSuchBucket"]
  ∧ Minio.final r = Minio.empty_store.
Proof. repeat split; vm_compute; reflexivity. Qed.

(** [fix_bucket_policy] twice on an empty server: the second run finds the
    bucket and only sets the policy again. *)
Example fix_bucket_policy_twice :
  let first := Minio.fix_bucket_policy Minio.store_world Minio.empty_store in
  let second := Minio.fix_bucket_policy Minio.store_world (Minio.final first) in
  Minio.client_calls (Minio.events second)
  = [Minio.BucketExists "llm-excel";
     Minio.SetBucketPolicy "llm-excel" (Minio.dumps_json Minio.fix_policy)]
  ∧ Minio.final second = Minio.final first.
Proof. split; vm_compute; reflexivity. Qed.

(** ** Malformed identifiers, by position *)

Lemma first_malformed_app (E : Env) (pre post : list string) (ids : list UUID)
    (fid m : string) :
  parses_to E pre ids →
  uuid_parse E fid = inl m →
  first_malformed E (pre ++ fid :: post) = Some m.
Proof.
  intros Hpre Hfid.
  induction Hpre as [|f u pre ids Hf _ IH]; simpl.
  - by rewrite Hfid.
  - by rewrite Hf.
Qed.

(** X20. When the identifiers of a request parse up to one that does not,
    [load_file_collection] raises the 400 error whose detail carries the
    [ValueError] text of that identifier, whatever identifiers follow it,
    and calls no collaborator. *)
Theorem first_malformed_identifier_is_reported (E : Env) (user_id : UUID)
    (pre post : list string) (ids : list UUID) (fid m : string) :
  parses_to E pre ids →
  uuid_parse E fid = inl m →
  load_file_collection E (pre ++ fid :: post) user_id
  = Eff (Raise (HTTPException 400%Z ("无效的 file_id 格式: " +:+ m))) [].
Proof.
  intros Hpre Hfid. apply load_file_collection_malformed.
  by eapply first_malformed_app.
Qed.

Lemma first_malformed_identifier_is_reported_witness :
  let E := Demo.env Demo.silent_engine in
  parses_to E [Demo.orders_id] [0xa%N]
  ∧ uuid_parse E "not-a-uuid" = inl "badly formed hexadecimal UUID string"
  ∧ load_file_collection E
      ([Demo.orders_id] ++ "not-a-uuid" :: ["also-bad"; Demo.payroll_id])
      Demo.alice
    = Eff (Raise (HTTPException 400%Z
                    "无效的 file_id 格式: badly formed hexadecimal UUID string"))
          [].
Proof.
  intros E.
  assert (Hpre : parses_to E [Demo.orders_id] [0xa%N])
    by (repeat constructor).
  assert (Hfid : uuid_parse E "not-a-uuid"
                 = inl "badly formed hexadecimal UUID string")
    by (vm_compute; reflexivity).
  split; [exact Hpre|]. split; [exact Hfid|].
  exact (first_malformed_identifier_is_reported E Demo.alice [Demo.orders_id]
           ["also-bad"; Demo.payroll_id] [0xa%N] _ _ Hpre Hfid).
Defined.
